(** * bot-trader: option strategy payoffs and the simulation ledger

    A shallow embedding of [options_models.py], [strategy_analyzer.py] and
    [trading_engine.py].

    Conventions of the model:
    - a Python [float] is a rational ([Q]) and its arithmetic is exact;
      module [Fl] gives the payoffs once more with every operation followed
      by a rounding, for the statements that hold only up to rounding;
    - [float('inf')] is the separate constructor [PInf] of [xfloat];
    - a [date] is its day ordinal ([Z]); [date.today()] is the parameter
      [today] of every function that reads the clock;
    - a raised exception is the [Raise] constructor of [res];
    - [random.normalvariate] is an oracle [rnd : nat -> Q] read at an index
      that is threaded through the simulation. *)

From Stdlib Require Import QArith Qabs Qround ZArith List String Ascii Bool Lia Lqa.
From Stdlib Require Import DecimalString DecimalNat Sorted Permutation.
Import ListNotations.

Open Scope Q_scope.

(** ** Python primitives *)

Module Py.

(** [a < b] on floats. *)
Definition ltb (a b : Q) : bool := negb (Qle_bool b a).

(** [a <= b] on floats. *)
Definition leb (a b : Q) : bool := Qle_bool a b.

(** [max(a, b)]: the first argument wins unless the second is larger. *)
Definition max (a b : Q) : Q := if ltb a b then b else a.

(** [min(a, b)]: the first argument wins unless the second is smaller. *)
Definition min (a b : Q) : Q := if ltb b a then b else a.

(** [int(x)] truncates toward zero. *)
Definition int (x : Q) : Z := Z.quot (Qnum x) (Z.pos (Qden x)).

(** [math.floor(x)], the rounding the specification speaks of. *)
Definition floor (x : Q) : Z := Z.div (Qnum x) (Z.pos (Qden x)).

End Py.

(** A float that may be [float('inf')]. *)
Inductive xfloat : Type :=
| Fin (q : Q)
| PInf.

(** ** options_models.py *)

(** The attributes set by [OptionsStrategy.__init__]. *)
Record StrategyBase : Type := mkBase {
  symbol : string;
  current_price : Q;
  expiration : Z;
  entry_date : Z
}.

(** The six strategy classes, each with the arguments of its constructor.
    The attributes that [__init__] computes ([total_cost], [net_debit]) are
    the functions of the same name below. *)
Inductive OptionsStrategy : Type :=
| IronCondor (b : StrategyBase)
    (short_call_strike long_call_strike short_put_strike long_put_strike
     net_credit : Q)
| Straddle (b : StrategyBase) (strike call_premium put_premium : Q)
| Strangle (b : StrategyBase)
    (call_strike put_strike call_premium put_premium : Q)
| CallSpread (b : StrategyBase)
    (buy_strike sell_strike buy_premium sell_premium : Q)
| PutSpread (b : StrategyBase)
    (buy_strike sell_strike buy_premium sell_premium : Q)
| Butterfly (b : StrategyBase)
    (low_strike middle_strike high_strike
     low_premium middle_premium high_premium : Q).

Definition base (s : OptionsStrategy) : StrategyBase :=
  match s with
  | IronCondor b _ _ _ _ _ => b
  | Straddle b _ _ _ => b
  | Strangle b _ _ _ _ => b
  | CallSpread b _ _ _ _ => b
  | PutSpread b _ _ _ _ => b
  | Butterfly b _ _ _ _ _ _ => b
  end.

(** [strategy.current_price = p]. *)
Definition set_current_price (p : Q) (s : OptionsStrategy) : OptionsStrategy :=
  let upd b := mkBase (symbol b) p (expiration b) (entry_date b) in
  match s with
  | IronCondor b sc lc sp lp nc => IronCondor (upd b) sc lc sp lp nc
  | Straddle b k cp pp => Straddle (upd b) k cp pp
  | Strangle b cs ps cp pp => Strangle (upd b) cs ps cp pp
  | CallSpread b bs ss bp sp => CallSpread (upd b) bs ss bp sp
  | PutSpread b bs ss bp sp => PutSpread (upd b) bs ss bp sp
  | Butterfly b l m h lp mp hp => Butterfly (upd b) l m h lp mp hp
  end.

(** [strategy.__class__.__name__]. *)
Definition class_name (s : OptionsStrategy) : string :=
  match s with
  | IronCondor _ _ _ _ _ _ => "IronCondor"
  | Straddle _ _ _ _ => "Straddle"
  | Strangle _ _ _ _ _ => "Strangle"
  | CallSpread _ _ _ _ _ => "CallSpread"
  | PutSpread _ _ _ _ _ => "PutSpread"
  | Butterfly _ _ _ _ _ _ _ => "Butterfly"
  end.

(** [self.total_cost = call_premium + put_premium] and
    [self.net_debit = ...], as the constructors compute them. *)
Definition total_cost (call_premium put_premium : Q) : Q :=
  call_premium + put_premium.

Definition spread_net_debit (buy_premium sell_premium : Q) : Q :=
  buy_premium - sell_premium.

Definition butterfly_net_debit (low_premium middle_premium high_premium : Q) : Q :=
  low_premium - (2 * middle_premium) + high_premium.

(** [date.today()] is [today]. *)
Definition days_to_expiration (today : Z) (s : OptionsStrategy) : Z :=
  (expiration (base s) - today)%Z.

Definition is_expired (today : Z) (s : OptionsStrategy) : bool :=
  (days_to_expiration today s <=? 0)%Z.

Definition calculate_payoff (s : OptionsStrategy) (stock_price : Q) : Q :=
  match s with
  | IronCondor _ short_call long_call short_put long_put net_credit =>
      let call_spread_payoff :=
        if Py.ltb short_call stock_price
        then Py.min (stock_price - short_call) (long_call - short_call)
        else 0 in
      let put_spread_payoff :=
        if Py.ltb stock_price short_put
        then Py.min (short_put - stock_price) (short_put - long_put)
        else 0 in
      let total_loss := call_spread_payoff + put_spread_payoff in
      net_credit - total_loss
  | Straddle _ strike call_premium put_premium =>
      let call_payoff := Py.max 0 (stock_price - strike) - call_premium in
      let put_payoff := Py.max 0 (strike - stock_price) - put_premium in
      call_payoff + put_payoff
  | Strangle _ call_strike put_strike call_premium put_premium =>
      let call_payoff := Py.max 0 (stock_price - call_strike) - call_premium in
      let put_payoff := Py.max 0 (put_strike - stock_price) - put_premium in
      call_payoff + put_payoff
  | CallSpread _ buy_strike sell_strike buy_premium sell_premium =>
      let net_debit := spread_net_debit buy_premium sell_premium in
      if Py.leb stock_price buy_strike then - net_debit
      else if Py.leb stock_price sell_strike
      then (stock_price - buy_strike) - net_debit
      else (sell_strike - buy_strike) - net_debit
  | PutSpread _ buy_strike sell_strike buy_premium sell_premium =>
      let net_debit := spread_net_debit buy_premium sell_premium in
      if Py.leb buy_strike stock_price then - net_debit
      else if Py.leb sell_strike stock_price
      then (buy_strike - stock_price) - net_debit
      else (buy_strike - sell_strike) - net_debit
  | Butterfly _ low middle high low_premium middle_premium high_premium =>
      let net_debit :=
        butterfly_net_debit low_premium middle_premium high_premium in
      if Py.leb stock_price low then - net_debit
      else if Py.leb stock_price middle
      then (stock_price - low) - net_debit
      else if Py.leb stock_price high
      then (middle - low) - (stock_price - middle) - net_debit
      else - net_debit
  end.

Definition get_max_profit (s : OptionsStrategy) : xfloat :=
  match s with
  | IronCondor _ _ _ _ _ net_credit => Fin net_credit
  | Straddle _ _ _ _ => PInf
  | Strangle _ _ _ _ _ => PInf
  | CallSpread _ buy_strike sell_strike buy_premium sell_premium =>
      Fin ((sell_strike - buy_strike)
           - spread_net_debit buy_premium sell_premium)
  | PutSpread _ buy_strike sell_strike buy_premium sell_premium =>
      Fin ((buy_strike - sell_strike)
           - spread_net_debit buy_premium sell_premium)
  | Butterfly _ low middle _ low_premium middle_premium high_premium =>
      Fin ((middle - low)
           - butterfly_net_debit low_premium middle_premium high_premium)
  end.

Definition get_max_loss (s : OptionsStrategy) : Q :=
  match s with
  | IronCondor _ short_call long_call short_put long_put net_credit =>
      let call_spread_width := long_call - short_call in
      let put_spread_width := short_put - long_put in
      Py.max call_spread_width put_spread_width - net_credit
  | Straddle _ _ call_premium put_premium =>
      total_cost call_premium put_premium
  | Strangle _ _ _ call_premium put_premium =>
      total_cost call_premium put_premium
  | CallSpread _ _ _ buy_premium sell_premium =>
      spread_net_debit buy_premium sell_premium
  | PutSpread _ _ _ buy_premium sell_premium =>
      spread_net_debit buy_premium sell_premium
  | Butterfly _ _ _ _ low_premium middle_premium high_premium =>
      butterfly_net_debit low_premium middle_premium high_premium
  end.

Definition get_break_even_points (s : OptionsStrategy) : list Q :=
  match s with
  | IronCondor _ short_call _ short_put _ net_credit =>
      let upper_be := short_call + net_credit in
      let lower_be := short_put - net_credit in
      [lower_be; upper_be]
  | Straddle _ strike call_premium put_premium =>
      let upper_be := strike + total_cost call_premium put_premium in
      let lower_be := strike - total_cost call_premium put_premium in
      [lower_be; upper_be]
  | Strangle _ call_strike put_strike call_premium put_premium =>
      let upper_be := call_strike + total_cost call_premium put_premium in
      let lower_be := put_strike - total_cost call_premium put_premium in
      [lower_be; upper_be]
  | CallSpread _ buy_strike _ buy_premium sell_premium =>
      [buy_strike + spread_net_debit buy_premium sell_premium]
  | PutSpread _ buy_strike _ buy_premium sell_premium =>
      [buy_strike - spread_net_debit buy_premium sell_premium]
  | Butterfly _ low _ high low_premium middle_premium high_premium =>
      let d := butterfly_net_debit low_premium middle_premium high_premium in
      let lower_be := low + d in
      let upper_be := high - d in
      [lower_be; upper_be]
  end.

(** [x <= m] where [m] may be infinite. *)
Definition xle (x : Q) (m : xfloat) : Prop :=
  match m with
  | Fin q => x <= q
  | PInf => True
  end.

(** The conventional leg order each class's docstring assumes; the
    constructors do not check it. *)
Definition legs_ordered (s : OptionsStrategy) : Prop :=
  match s with
  | IronCondor _ short_call long_call short_put long_put _ =>
      long_put <= short_put /\ short_put <= short_call
      /\ short_call <= long_call
  | Straddle _ _ _ _ => True
  | Strangle _ _ _ _ _ => True
  | CallSpread _ buy_strike sell_strike _ _ => buy_strike <= sell_strike
  | PutSpread _ buy_strike sell_strike _ _ => sell_strike <= buy_strike
  | Butterfly _ low middle high _ _ _ =>
      low <= middle /\ middle <= high /\ high - middle <= middle - low
  end.

(** The sample strategies of [test_app.py]. *)
Definition aapl_base : StrategyBase := mkBase "AAPL" 150 30 0.
Definition tsla_base : StrategyBase := mkBase "TSLA" 200 21 0.

Definition sample_iron_condor : OptionsStrategy :=
  IronCondor aapl_base 155 160 145 140 (5 # 2).

Definition sample_straddle : OptionsStrategy :=
  Straddle tsla_base 200 15 12.


(** The net premium lies between zero and the width it is set against:
    the situation in which the declared break-even prices are on the
    sloped parts of the payoff. *)
Definition premium_within_width (s : OptionsStrategy) : Prop :=
  match s with
  | IronCondor _ short_call long_call short_put long_put net_credit =>
      short_put <= short_call /\ 0 <= net_credit
      /\ net_credit <= long_call - short_call
      /\ net_credit <= short_put - long_put
  | Straddle _ _ call_premium put_premium =>
      0 <= total_cost call_premium put_premium
  | Strangle _ call_strike put_strike call_premium put_premium =>
      0 <= total_cost call_premium put_premium
      /\ put_strike - call_strike <= total_cost call_premium put_premium
  | CallSpread _ buy_strike sell_strike buy_premium sell_premium =>
      0 <= spread_net_debit buy_premium sell_premium
      /\ spread_net_debit buy_premium sell_premium <= sell_strike - buy_strike
  | PutSpread _ buy_strike sell_strike buy_premium sell_premium =>
      0 <= spread_net_debit buy_premium sell_premium
      /\ spread_net_debit buy_premium sell_premium <= buy_strike - sell_strike
  | Butterfly _ low middle high low_premium middle_premium high_premium =>
      0 <= butterfly_net_debit low_premium middle_premium high_premium
      /\ butterfly_net_debit low_premium middle_premium high_premium
         <= middle - low
      /\ high - middle == middle - low
  end.

(** A butterfly whose upper wing is wider than its lower wing. *)
Definition wide_butterfly : OptionsStrategy :=
  Butterfly (mkBase "SPY" 100 30 0) 90 100 120 5 2 1.

(** An iron condor sold for more than the width of its spreads. *)
Definition rich_iron_condor : OptionsStrategy :=
  IronCondor aapl_base 155 160 145 140 6.

(** ** strategy_analyzer.py *)

(** [max_profit > 0] where [max_profit] may be [float('inf')]. *)
Definition xpositive (m : xfloat) : bool :=
  match m with
  | Fin q => Py.ltb 0 q
  | PInf => true
  end.

(** [StrategyAnalyzer._calculate_risk_reward_ratio]. The division is only
    reached with a non-zero divisor. *)
Definition _calculate_risk_reward_ratio (s : OptionsStrategy) : xfloat :=
  let max_profit := get_max_profit s in
  let max_loss := Qabs (get_max_loss s) in
  if Qeq_bool max_loss 0
  then (if xpositive max_profit then PInf else Fin 0)
  else match max_profit with
       | Fin m => Fin (m / max_loss)
       | PInf => Fin 0
       end.

(** [m / d] for a positive divisor, where [m] may be [float('inf')]:
    the quotient the specification writes for the ratio. *)
Definition xdiv (m : xfloat) (d : Q) : xfloat :=
  match m with
  | Fin q => Fin (q / d)
  | PInf => PInf
  end.

(** Equality of possibly infinite floats, up to the value of the
    rational. *)
Definition xeq (a b : xfloat) : Prop :=
  match a, b with
  | Fin p, Fin q => p == q
  | PInf, PInf => True
  | _, _ => False
  end.

(** The ratio in the words of the specification. *)
Definition risk_reward_ratio_spec (s : OptionsStrategy) : xfloat :=
  if Qeq_bool (get_max_loss s) 0
  then (if xpositive (get_max_profit s) then PInf else Fin 0)
  else xdiv (get_max_profit s) (Qabs (get_max_loss s)).

(** ** trading_engine.py *)

(** Exceptions the engine can raise. *)
Inductive exn : Type :=
| ZeroDivisionError
| ValueError
| IndexError.

Inductive res (A : Type) : Type :=
| Ok (a : A)
| Raise (e : exn).

Arguments Ok {A} a.
Arguments Raise {A} e.

Definition bind {A B : Type} (m : res A) (k : A -> res B) : res B :=
  match m with
  | Ok a => k a
  | Raise e => Raise e
  end.

Notation "x <- m ;; k" := (bind m (fun x => k))
  (at level 61, m at next level, right associativity).

Module Trade.
Record t : Type := mk {
  id : string;
  symbol : string;
  strategy_type : string;
  entry_date : Z;
  exit_date : Z;
  entry_price : Q;
  exit_price : Q;
  quantity : Z;
  pnl : Q;
  action : string
}.
End Trade.

Module Position.
Record t : Type := mk {
  id : string;
  symbol : string;
  strategy_type : string;
  entry_date : Z;
  entry_price : Q;
  quantity : Z;
  current_price : Q;
  unrealized_pnl : Q
}.

(** The [__eq__] a dataclass generates: field by field, floats by
    value. *)
Definition eqb (p q : t) : bool :=
  String.eqb (id p) (id q)
  && String.eqb (symbol p) (symbol q)
  && String.eqb (strategy_type p) (strategy_type q)
  && Z.eqb (entry_date p) (entry_date q)
  && Qeq_bool (entry_price p) (entry_price q)
  && Z.eqb (quantity p) (quantity q)
  && Qeq_bool (current_price p) (current_price q)
  && Qeq_bool (unrealized_pnl p) (unrealized_pnl q).
End Position.

Record SimulationConfig : Type := mkConfig {
  initial_capital : Q;
  risk_per_trade : Q;
  max_concurrent_trades : Z;
  simulation_days : Z
}.

Definition default_config : SimulationConfig :=
  mkConfig 10000 (2 # 100) 5 30.

(** The state of a [TradingEngine]. The ledger is [cash], [positions],
    [trades] and [trade_counter]. The [options] list is never read and is
    left out. *)
Record TradingEngine : Type := mkEngine {
  cash : Q;
  positions : list Position.t;
  trades : list Trade.t;
  strategies : list OptionsStrategy;
  config : SimulationConfig;
  current_date : Z;
  trade_counter : nat
}.

(** [TradingEngine()] on the day [today]. *)
Definition new_engine (today : Z) : TradingEngine :=
  mkEngine 10000 [] [] [] default_config today 0.

Definition set_config (c : SimulationConfig) (e : TradingEngine) : TradingEngine :=
  mkEngine (initial_capital c) (positions e) (trades e) (strategies e) c
           (current_date e) (trade_counter e).

Definition add_strategy (s : OptionsStrategy) (e : TradingEngine) : TradingEngine :=
  mkEngine (cash e) (positions e) (trades e) (strategies e ++ [s]) (config e)
           (current_date e) (trade_counter e).

(** [f"{n:04d}"]: decimal digits, padded with zeros to four characters. *)
Definition fmt_04d (n : nat) : string :=
  let digits := NilEmpty.string_of_uint (Nat.to_uint n) in
  String.concat "" (repeat "0"%string (4 - String.length digits)) ++ digits.

Definition calculate_position_size (e : TradingEngine) (s : OptionsStrategy) : Z :=
  let max_risk_amount := cash e * risk_per_trade (config e) in
  let max_loss := Qabs (get_max_loss s) in
  if Py.leb max_loss 0 then 0%Z
  else
    let position_size := Py.int (max_risk_amount / max_loss) in
    Z.min position_size 10.

(** [hasattr(strategy, 'net_credit')] and [hasattr(strategy, 'total_cost')]. *)
Definition has_net_credit (s : OptionsStrategy) : bool :=
  match s with
  | IronCondor _ _ _ _ _ _ => true
  | _ => false
  end.

Definition has_total_cost (s : OptionsStrategy) : bool :=
  match s with
  | Straddle _ _ _ _ | Strangle _ _ _ _ _ => true
  | _ => false
  end.

(** [isinstance(s, type(t))]: no strategy class derives from another, so
    this is equality of the classes. *)
Definition isinstance_type_of (s t : OptionsStrategy) : bool :=
  String.eqb (class_name s) (class_name t).

Definition should_enter_trade (today : Z) (e : TradingEngine)
    (s : OptionsStrategy) : res bool :=
  let position_size := calculate_position_size e s in
  if (position_size <=? 0)%Z then Ok false
  else if (max_concurrent_trades (config e) <=? Z.of_nat (List.length (positions e)))%Z
  then Ok false
  else if is_expired today s then Ok false
  else
    let days_to_exp := days_to_expiration today s in
    match strategies e with
    | [] => Raise IndexError
    | first :: _ =>
        if isinstance_type_of s first && has_net_credit s
        then Ok ((30 <=? days_to_exp)%Z && (days_to_exp <=? 45)%Z)
        else if has_total_cost s
        then Ok ((15 <=? days_to_exp)%Z && (days_to_exp <=? 30)%Z)
        else Ok true
    end.

(** The four exit tests, in the order the code tries them. *)
Definition exit_expired (today : Z) (s : OptionsStrategy) : bool :=
  is_expired today s.

Definition exit_held_too_long (today : Z) (e : TradingEngine)
    (p : Position.t) (s : OptionsStrategy) : bool :=
  let days_held := (current_date e - Position.entry_date p)%Z in
  Py.leb (inject_Z (days_to_expiration today s) * (1 # 2)) (inject_Z days_held).

Definition exit_profit_target (p : Position.t) (s : OptionsStrategy) : bool :=
  let current_pnl := Position.unrealized_pnl p in
  match get_max_profit s with
  | Fin max_profit => Py.leb (max_profit * (1 # 2)) current_pnl
  | PInf => false
  end.

Definition exit_loss_limit (p : Position.t) (s : OptionsStrategy) : bool :=
  let current_pnl := Position.unrealized_pnl p in
  let max_loss := get_max_loss s in
  Py.leb current_pnl (max_loss * (1 # 2)).

Definition should_exit_trade (today : Z) (e : TradingEngine)
    (p : Position.t) (s : OptionsStrategy) : bool :=
  if exit_expired today s then true
  else if exit_held_too_long today e p s then true
  else if exit_profit_target p s then true
  else if exit_loss_limit p s then true
  else false.

(** [simulate_price_movement], with the sample drawn from
    [random.normalvariate(0.0005, 0.02)] passed in as [daily_return]. *)
Definition simulate_price_movement (daily_return current_price : Q) (days : Z) : Q :=
  let price_change := current_price * daily_return * inject_Z days in
  let new_price := current_price + price_change in
  Py.max new_price (1 # 100).

(** [s.symbol == sym]. *)
Definition has_symbol (sym : string) (s : OptionsStrategy) : bool :=
  String.eqb (symbol (base s)) sym.

(** [next((s for s in self.strategies if s.symbol == sym), None)]. *)
Definition find_strategy (strats : list OptionsStrategy) (sym : string)
    : option OptionsStrategy :=
  find (has_symbol sym) strats.

(** An assignment to an attribute of the first object of a list that
    satisfies [f]: the object found by [next] is the one in the list. *)
Fixpoint update_first {A : Type} (f : A -> bool) (g : A -> A) (l : list A) : list A :=
  match l with
  | [] => []
  | x :: r => if f x then g x :: r else x :: update_first f g r
  end.

(** The body of the loop of [update_positions], over the positions still
    to visit; [k] is the index of the next random sample. *)
Fixpoint update_positions_loop (rnd : nat -> Q) (ps : list Position.t)
    (strats : list OptionsStrategy) (k : nat)
    : list Position.t * list OptionsStrategy * nat :=
  match ps with
  | [] => ([], strats, k)
  | position :: rest =>
      match find_strategy strats (Position.symbol position) with
      | None =>
          let '(rest', strats', k') := update_positions_loop rnd rest strats k in
          (position :: rest', strats', k')
      | Some strategy =>
          let price :=
            simulate_price_movement (rnd k) (Position.current_price position) 1 in
          let strats1 :=
            update_first (has_symbol (Position.symbol position))
                         (set_current_price price) strats in
          let position' :=
            Position.mk (Position.id position) (Position.symbol position)
              (Position.strategy_type position) (Position.entry_date position)
              (Position.entry_price position) (Position.quantity position)
              price
              (calculate_payoff strategy price
               * inject_Z (Position.quantity position)) in
          let '(rest', strats', k') :=
            update_positions_loop rnd rest strats1 (S k) in
          (position' :: rest', strats', k')
      end
  end.

Definition update_positions (rnd : nat -> Q) (k : nat) (e : TradingEngine)
    : TradingEngine * nat :=
  let '(ps, strats, k') :=
    update_positions_loop rnd (positions e) (strategies e) k in
  (mkEngine (cash e) ps (trades e) strats (config e) (current_date e)
            (trade_counter e), k').

(** [l.remove(p)]: drops the first element equal to [p]; [None] stands for
    the [ValueError] of a list without one. *)
Fixpoint list_remove (p : Position.t) (l : list Position.t)
    : option (list Position.t) :=
  match l with
  | [] => None
  | q :: r =>
      if Position.eqb q p then Some r
      else option_map (cons q) (list_remove p r)
  end.

(** [close_position]: the engine after the call and what the call returns
    or raises. The ledger is written in the order of the source, so a
    [ValueError] from [remove] leaves cash, trades and the counter
    updated. *)
Definition close_position (e : TradingEngine) (position : Position.t)
    : TradingEngine * res (option Trade.t) :=
  match find_strategy (strategies e) (Position.symbol position) with
  | None => (e, Ok None)
  | Some strategy =>
      let strats :=
        update_first (has_symbol (Position.symbol position))
                     (set_current_price (Position.current_price position))
                     (strategies e) in
      let pnl :=
        calculate_payoff strategy (Position.current_price position)
        * inject_Z (Position.quantity position) in
      let cash' := cash e + pnl in
      let trade :=
        Trade.mk ("T" ++ fmt_04d (trade_counter e))
          (Position.symbol position) (Position.strategy_type position)
          (Position.entry_date position) (current_date e)
          (Position.entry_price position) (Position.current_price position)
          (Position.quantity position) pnl "SELL" in
      let counter' := S (trade_counter e) in
      let trades' := trades e ++ [trade] in
      match list_remove position (positions e) with
      | None =>
          (mkEngine cash' (positions e) trades' strats (config e)
                    (current_date e) counter',
           Raise ValueError)
      | Some ps =>
          (mkEngine cash' ps trades' strats (config e)
                    (current_date e) counter',
           Ok (Some trade))
      end
  end.

(** [for position in ps: self.close_position(position)]; an exception
    leaves the loop. *)
Fixpoint close_each (ps : list Position.t) (e : TradingEngine) : res TradingEngine :=
  match ps with
  | [] => Ok e
  | position :: rest =>
      let '(e', r) := close_position e position in
      _ <- r ;;
      close_each rest e'
  end.

(** The position that [run_simulation] opens for [strategy]. *)
Definition new_position (e : TradingEngine) (strategy : OptionsStrategy)
    (position_size : Z) : Position.t :=
  Position.mk ("P" ++ fmt_04d (List.length (positions e) + 1))
    (symbol (base strategy)) (class_name strategy) (current_date e)
    (current_price (base strategy)) position_size
    (current_price (base strategy)) 0.

(** [True] when the body of the entry loop appends a position for
    [strategy]. *)
Definition enters (today : Z) (e : TradingEngine) (strategy : OptionsStrategy)
    : res bool :=
  go <- should_enter_trade today e strategy ;;
  if go then
    match find (fun p => String.eqb (Position.symbol p) (symbol (base strategy)))
               (positions e) with
    | Some _ => Ok false
    | None => Ok (0 <? calculate_position_size e strategy)%Z
    end
  else Ok false.

Definition open_position (e : TradingEngine) (strategy : OptionsStrategy)
    : TradingEngine :=
  let position_size := calculate_position_size e strategy in
  mkEngine (cash e) (positions e ++ [new_position e strategy position_size])
           (trades e) (strategies e) (config e) (current_date e)
           (trade_counter e).

(** [for strategy in self.strategies: ...], the entry loop. *)
Fixpoint enter_each (today : Z) (ss : list OptionsStrategy) (e : TradingEngine)
    : res TradingEngine :=
  match ss with
  | [] => Ok e
  | strategy :: rest =>
      go <- enters today e strategy ;;
      enter_each today rest (if go then open_position e strategy else e)
  end.

Definition set_current_date (d : Z) (e : TradingEngine) : TradingEngine :=
  mkEngine (cash e) (positions e) (trades e) (strategies e) (config e) d
           (trade_counter e).

(** [strategy and self.should_exit_trade(position, strategy)] for the
    strategy found for the position. *)
Definition exits (today : Z) (e : TradingEngine) (p : Position.t) : bool :=
  match find_strategy (strategies e) (Position.symbol p) with
  | Some strategy => should_exit_trade today e p strategy
  | None => false
  end.

(** One pass of the body of [for day in range(simulation_days)]. *)
Definition simulation_day (today : Z) (rnd : nat -> Q) (day : Z)
    (st : TradingEngine * nat) : res (TradingEngine * nat) :=
  let '(e, k) := st in
  let e1 := set_current_date (today + day) e in
  let '(e2, k') := update_positions rnd k e1 in
  let positions_to_close := filter (exits today e2) (positions e2) in
  e3 <- close_each positions_to_close e2 ;;
  e4 <- enter_each today (strategies e3) e3 ;;
  Ok (e4, k').

(** [n] passes of the loop, from day number [day] on. *)
Fixpoint simulation_days_from (today : Z) (rnd : nat -> Q) (n : nat) (day : Z)
    (st : TradingEngine * nat) : res (TradingEngine * nat) :=
  match n with
  | O => Ok st
  | S n' =>
      st' <- simulation_day today rnd day st ;;
      simulation_days_from today rnd n' (day + 1) st'
  end.

Module Result.
(** The dictionary that [run_simulation] returns. *)
Record t : Type := mk {
  final_value : Q;
  total_return : Q;
  total_trades : nat;
  winning_trades : nat;
  losing_trades : Z;
  win_rate : Q;
  trades : list Trade.t
}.
End Result.

(** [t.pnl > 0]. *)
Definition is_winner (t : Trade.t) : bool := Py.ltb 0 (Trade.pnl t).

(** The part of [run_simulation] after the last position is closed. *)
Definition calculate_results (e : TradingEngine) : res Result.t :=
  let total_trades := List.length (trades e) in
  let winning_trades := List.length (filter is_winner (trades e)) in
  let losing_trades := (Z.of_nat total_trades - Z.of_nat winning_trades)%Z in
  let win_rate :=
    if (0 <? total_trades)%nat
    then inject_Z (Z.of_nat winning_trades) / inject_Z (Z.of_nat total_trades) * 100
    else 0 in
  if Qeq_bool (initial_capital (config e)) 0 then Raise ZeroDivisionError
  else
    let total_return :=
      ((cash e - initial_capital (config e)) / initial_capital (config e)) * 100 in
    Ok (Result.mk (cash e) total_return total_trades winning_trades
                  losing_trades win_rate (trades e)).

(** The reset at the head of [run_simulation]. *)
Definition reset_state (today : Z) (e : TradingEngine) : TradingEngine :=
  mkEngine (initial_capital (config e)) [] [] (strategies e) (config e) today
           (trade_counter e).

(** The engine when the day loop and the final closing are done. *)
Definition run_to_close (today : Z) (rnd : nat -> Q) (k : nat) (e : TradingEngine)
    : res (TradingEngine * nat) :=
  let e0 := reset_state today e in
  st <- simulation_days_from today rnd
          (Z.to_nat (simulation_days (config e0))) 0%Z (e0, k) ;;
  let '(e1, k') := st in
  e2 <- close_each (positions e1) e1 ;;
  Ok (e2, k').

Definition run_simulation (today : Z) (rnd : nat -> Q) (k : nat) (e : TradingEngine)
    : res (TradingEngine * nat * Result.t) :=
  st <- run_to_close today rnd k e ;;
  r <- calculate_results (fst st) ;;
  Ok (st, r).
(** ** The rest of options_models.py *)

Module OptionContract.

(** The dataclass [Option]. *)
Record t : Type := mk {
  symbol : string;
  option_type : string;
  strike : Q;
  expiration : Z;
  premium : Q;
  current_price : Q;
  volume : Z;
  open_interest : Z
}.

Definition days_to_expiration (today : Z) (o : t) : Z :=
  (expiration o - today)%Z.

Definition is_expired (today : Z) (o : t) : bool :=
  (days_to_expiration today o <=? 0)%Z.

(** Every type other than "CALL" is priced as a put. *)
Definition intrinsic_value (o : t) : Q :=
  if String.eqb (option_type o) "CALL"
  then Py.max 0 (current_price o - strike o)
  else Py.max 0 (strike o - current_price o).

Definition time_value (o : t) : Q :=
  premium o - intrinsic_value o.

Definition calculate_payoff (o : t) (stock_price : Q) : Q :=
  if String.eqb (option_type o) "CALL"
  then Py.max 0 (stock_price - strike o) - premium o
  else Py.max 0 (strike o - stock_price) - premium o.

End OptionContract.

(** A call and a put on a strike, written only with what the payoff
    reads. *)
Definition call_option (strike premium : Q) : OptionContract.t :=
  OptionContract.mk "" "CALL" strike 0 premium 0 0 0.

Definition put_option (strike premium : Q) : OptionContract.t :=
  OptionContract.mk "" "PUT" strike 0 premium 0 0 0.

(** Legs in the conventional order and, for the butterfly, wings of the
    same width. *)
Definition legs_balanced (s : OptionsStrategy) : Prop :=
  match s with
  | Butterfly _ low middle high _ _ _ =>
      low <= middle /\ middle <= high /\ high - middle == middle - low
  | _ => legs_ordered s
  end.

(** Legs in the conventional order, and the put of a strangle struck no
    higher than its call. *)
Definition legs_apart (s : OptionsStrategy) : Prop :=
  match s with
  | Strangle _ call_strike put_strike _ _ => put_strike <= call_strike
  | _ => legs_ordered s
  end.

(** ** The rest of strategy_analyzer.py *)

Definition _calculate_probability_of_profit (s : OptionsStrategy) : Q :=
  let current_price := current_price (base s) in
  match get_break_even_points s with
  | [be_point] =>
      if Py.ltb be_point current_price then 6 # 10 else 4 # 10
  | [lower_be; upper_be] =>
      if Py.leb lower_be current_price && Py.leb current_price upper_be
      then 3 # 10 else 7 # 10
  | _ => 5 # 10
  end.

Definition _calculate_expected_value (s : OptionsStrategy) : Q :=
  let prob_profit := _calculate_probability_of_profit s in
  let max_loss := get_max_loss s in
  let max_profit :=
    match get_max_profit s with
    | PInf => Qabs max_loss * 2
    | Fin m => m
    end in
  (prob_profit * max_profit) + ((1 - prob_profit) * max_loss).

Definition _estimate_delta (s : OptionsStrategy) (current_price : Q) : Q :=
  let price_change := 1 # 100 in
  let current_payoff := calculate_payoff s current_price in
  let new_payoff := calculate_payoff s (current_price + price_change) in
  (new_payoff - current_payoff) / price_change.

(** [r > q] where [r] may be [float('inf')]. *)
Definition xgtb (r : xfloat) (q : Q) : bool :=
  match r with
  | Fin x => Py.ltb q x
  | PInf => true
  end.

Definition _get_recommendation (s : OptionsStrategy) : string :=
  let risk_reward := _calculate_risk_reward_ratio s in
  let prob_profit := _calculate_probability_of_profit s in
  let expected_value := _calculate_expected_value s in
  if Py.ltb 0 expected_value && xgtb risk_reward (15 # 10)
     && Py.ltb (6 # 10) prob_profit
  then "STRONG BUY"
  else if Py.ltb 0 expected_value && xgtb risk_reward 1
          && Py.ltb (5 # 10) prob_profit
  then "BUY"
  else if Py.ltb 0 expected_value then "WEAK BUY"
  else if Py.ltb expected_value (- Qabs (get_max_loss s) * (5 # 10))
  then "AVOID"
  else "HOLD".

Module Comparison.

(** One value of the dictionary built by [compare_strategies]. *)
Record t : Type := mk {
  name : string;
  symbol : string;
  expected_value : Q;
  risk_reward_ratio : xfloat;
  probability_of_profit : Q;
  recommendation : string
}.

End Comparison.

(** [f"Strategy_{n}"]. *)
Definition strategy_key (n : nat) : string :=
  "Strategy_" ++ NilEmpty.string_of_uint (Nat.to_uint n).

(** The items of [comparison] in insertion order; the keys differ, so no
    assignment overwrites another. [i] is the index of the first strategy
    of [ss]. Of the analysis of each strategy only the four entries copied
    into the comparison are computed here. *)
Fixpoint comparison_items (i : nat) (ss : list OptionsStrategy)
    : list (string * Comparison.t) :=
  match ss with
  | [] => []
  | strategy :: rest =>
      (strategy_key (i + 1),
       Comparison.mk (class_name strategy) (symbol (base strategy))
         (_calculate_expected_value strategy)
         (_calculate_risk_reward_ratio strategy)
         (_calculate_probability_of_profit strategy)
         (_get_recommendation strategy))
      :: comparison_items (S i) rest
  end.

(** [sorted(items, key=..., reverse=True)]: descending in the key, items
    of equal key in their original order. *)
Fixpoint insert_descending {A : Type} (key : A -> Q) (x : A) (l : list A) : list A :=
  match l with
  | [] => [x]
  | y :: r =>
      if Py.ltb (key x) (key y) then y :: insert_descending key x r
      else x :: y :: r
  end.

Definition sorted_descending {A : Type} (key : A -> Q) (l : list A) : list A :=
  fold_right (insert_descending key) [] l.

(** [comparison['ranking']] of [compare_strategies]. *)
Definition ranking (ss : list OptionsStrategy) : list string :=
  let ranked_strategies :=
    sorted_descending (fun item => Comparison.expected_value (snd item))
                      (comparison_items 0 ss) in
  map fst ranked_strategies.

Module Market.

(** The dictionary returned by [analyze_market_conditions]. *)
Record t : Type := mk {
  total_expected_value : Q;
  average_probability_of_profit : Q;
  market_sentiment : string;
  strategy_count : nat
}.

End Market.

(** [sum(f(s) for s in ss)]. *)
Definition py_sum {A : Type} (f : A -> Q) (l : list A) : Q :=
  fold_left (fun acc x => acc + f x) l 0.

(** [None] stands for the empty dictionary returned for no strategy. *)
Definition analyze_market_conditions (ss : list OptionsStrategy)
    : option Market.t :=
  match ss with
  | [] => None
  | _ =>
      let total_expected_value := py_sum _calculate_expected_value ss in
      let avg_prob_profit :=
        py_sum _calculate_probability_of_profit ss
        / inject_Z (Z.of_nat (List.length ss)) in
      let sentiment : string :=
        if Py.ltb 0 total_expected_value && Py.ltb (6 # 10) avg_prob_profit
        then "BULLISH"%string
        else if Py.ltb total_expected_value 0
                && Py.ltb avg_prob_profit (4 # 10)
        then "BEARISH"%string
        else "NEUTRAL"%string in
      Some (Market.mk total_expected_value avg_prob_profit sentiment
                      (List.length ss))
  end.

(** The maximum profit is not negative. *)
Definition profit_nonneg (s : OptionsStrategy) : Prop :=
  match get_max_profit s with
  | Fin m => 0 <= m
  | PInf => True
  end.

(** The order in which [sorted(..., reverse=True)] leaves two neighbours. *)
Definition descending {A : Type} (key : A -> Q) (x y : A) : Prop :=
  key y <= key x.

(** ** The rest of trading_engine.py *)

(** [execute_trade] writes only [cash] and [trade_counter]: the result is
    the cash after the call (infinite after the sale of a strategy of
    unbounded profit), the counter after the call, and what is returned.
    No caller adds the trade to [trades]. *)
Definition execute_trade (e : TradingEngine) (strategy : OptionsStrategy)
    (action : string) : xfloat * nat * option Trade.t :=
  let position_size := calculate_position_size e strategy in
  if (position_size <=? 0)%Z then (Fin (cash e), trade_counter e, None)
  else
    let trade :=
      Trade.mk ("T" ++ fmt_04d (trade_counter e))
        (symbol (base strategy)) (class_name strategy)
        (current_date e) (current_date e)
        (current_price (base strategy)) (current_price (base strategy))
        position_size 0 action in
    if String.eqb action "BUY" then
      let trade_value :=
        Qabs (get_max_loss strategy) * inject_Z position_size in
      if Py.ltb (cash e) trade_value
      then (Fin (cash e), trade_counter e, None)
      else (Fin (cash e - trade_value), S (trade_counter e), Some trade)
    else
      match get_max_profit strategy with
      | Fin max_profit =>
          let trade_value := Qabs max_profit * inject_Z position_size in
          (Fin (cash e + trade_value), S (trade_counter e), Some trade)
      | PInf => (PInf, S (trade_counter e), Some trade)
      end.

Module Portfolio.

(** The dictionary returned by [get_portfolio]. *)
Record t : Type := mk {
  cash : Q;
  total_value : Q;
  positions : list Position.t
}.

End Portfolio.

Definition get_portfolio (e : TradingEngine) : Portfolio.t :=
  let total_value :=
    fold_left (fun total position => total + Position.unrealized_pnl position)
              (positions e) (cash e) in
  Portfolio.mk (cash e) total_value (positions e).

Definition get_trade_history (e : TradingEngine) : list Trade.t :=
  trades e.

(** ** Invariants of the ledger *)

(** A strategy without its reference price, the one attribute the engine
    assigns. *)
Definition without_price (s : OptionsStrategy) : OptionsStrategy :=
  set_current_price 0 s.

(** The position's unrealized P&L is the payoff of its strategy at its
    current price, as [update_positions] leaves it. *)
Definition marked_to_market (strats : list OptionsStrategy) (p : Position.t)
    : Prop :=
  forall strategy,
    find_strategy strats (Position.symbol p) = Some strategy ->
    Position.unrealized_pnl p
    = calculate_payoff strategy (Position.current_price p)
      * inject_Z (Position.quantity p).

(** The open positions are on distinct symbols, each has a strategy and
    between 1 and 10 contracts, and they are no more than
    [max_concurrent_trades]. *)
Definition book_in_order (e : TradingEngine) : Prop :=
  NoDup (map Position.symbol (positions e))
  /\ (forall p, In p (positions e) ->
        find_strategy (strategies e) (Position.symbol p) <> None
        /\ (1 <= Position.quantity p <= 10)%Z)
  /\ (Z.of_nat (List.length (positions e))
      <= Z.max 0 (max_concurrent_trades (config e)))%Z.

(** Cash is the initial capital with the P&L of the trades closed added to
    it one after the other, in the order of the closes. *)
Definition cash_accounted (e : TradingEngine) : Prop :=
  cash e
  = fold_left (fun cash trade => cash + Trade.pnl trade) (trades e)
              (initial_capital (config e)).

(** The trades are numbered from [c0] on, in the order they were closed. *)
Definition trades_numbered (c0 : nat) (e : TradingEngine) : Prop :=
  trade_counter e = (c0 + List.length (trades e))%nat
  /\ map Trade.id (trades e)
     = map (fun i => ("T" ++ fmt_04d i)%string) (seq c0 (List.length (trades e))).

Definition run_invariant (c0 : nat) (e : TradingEngine) : Prop :=
  book_in_order e /\ cash_accounted e /\ trades_numbered c0 e.

(** ** Payoffs with rounding

    The payoff functions once more, with the result of every float
    addition, subtraction, multiplication and division passed through [R],
    the rounding of the arithmetic. Comparisons, [max], [min] and the unary
    minus are exact in binary64 and stay as they are. With [R] the identity
    these are the definitions above. *)

Module Fl.
Section Rounded.

Variable R : Q -> Q.

Definition fadd (a b : Q) : Q := R (a + b).
Definition fsub (a b : Q) : Q := R (a - b).
Definition fmul (a b : Q) : Q := R (a * b).
Definition fdiv (a b : Q) : Q := R (a / b).

(** [Option.calculate_payoff]. *)
Definition option_payoff (o : OptionContract.t) (stock_price : Q) : Q :=
  if String.eqb (OptionContract.option_type o) "CALL"
  then fsub (Py.max 0 (fsub stock_price (OptionContract.strike o)))
            (OptionContract.premium o)
  else fsub (Py.max 0 (fsub (OptionContract.strike o) stock_price))
            (OptionContract.premium o).

Definition total_cost (call_premium put_premium : Q) : Q :=
  fadd call_premium put_premium.

Definition spread_net_debit (buy_premium sell_premium : Q) : Q :=
  fsub buy_premium sell_premium.

Definition butterfly_net_debit (low_premium middle_premium high_premium : Q) : Q :=
  fadd (fsub low_premium (fmul 2 middle_premium)) high_premium.

Definition calculate_payoff (s : OptionsStrategy) (stock_price : Q) : Q :=
  match s with
  | IronCondor _ short_call long_call short_put long_put net_credit =>
      let call_spread_payoff :=
        if Py.ltb short_call stock_price
        then Py.min (fsub stock_price short_call) (fsub long_call short_call)
        else 0 in
      let put_spread_payoff :=
        if Py.ltb stock_price short_put
        then Py.min (fsub short_put stock_price) (fsub short_put long_put)
        else 0 in
      let total_loss := fadd call_spread_payoff put_spread_payoff in
      fsub net_credit total_loss
  | Straddle _ strike call_premium put_premium =>
      let call_payoff :=
        fsub (Py.max 0 (fsub stock_price strike)) call_premium in
      let put_payoff :=
        fsub (Py.max 0 (fsub strike stock_price)) put_premium in
      fadd call_payoff put_payoff
  | Strangle _ call_strike put_strike call_premium put_premium =>
      let call_payoff :=
        fsub (Py.max 0 (fsub stock_price call_strike)) call_premium in
      let put_payoff :=
        fsub (Py.max 0 (fsub put_strike stock_price)) put_premium in
      fadd call_payoff put_payoff
  | CallSpread _ buy_strike sell_strike buy_premium sell_premium =>
      let net_debit := spread_net_debit buy_premium sell_premium in
      if Py.leb stock_price buy_strike then - net_debit
      else if Py.leb stock_price sell_strike
      then fsub (fsub stock_price buy_strike) net_debit
      else fsub (fsub sell_strike buy_strike) net_debit
  | PutSpread _ buy_strike sell_strike buy_premium sell_premium =>
      let net_debit := spread_net_debit buy_premium sell_premium in
      if Py.leb buy_strike stock_price then - net_debit
      else if Py.leb sell_strike stock_price
      then fsub (fsub buy_strike stock_price) net_debit
      else fsub (fsub buy_strike sell_strike) net_debit
  | Butterfly _ low middle high low_premium middle_premium high_premium =>
      let net_debit :=
        butterfly_net_debit low_premium middle_premium high_premium in
      if Py.leb stock_price low then - net_debit
      else if Py.leb stock_price middle
      then fsub (fsub stock_price low) net_debit
      else if Py.leb stock_price high
      then fsub (fsub (fsub middle low) (fsub stock_price middle)) net_debit
      else - net_debit
  end.

Definition get_break_even_points (s : OptionsStrategy) : list Q :=
  match s with
  | IronCondor _ short_call _ short_put _ net_credit =>
      let upper_be := fadd short_call net_credit in
      let lower_be := fsub short_put net_credit in
      [lower_be; upper_be]
  | Straddle _ strike call_premium put_premium =>
      let upper_be := fadd strike (total_cost call_premium put_premium) in
      let lower_be := fsub strike (total_cost call_premium put_premium) in
      [lower_be; upper_be]
  | Strangle _ call_strike put_strike call_premium put_premium =>
      let upper_be := fadd call_strike (total_cost call_premium put_premium) in
      let lower_be := fsub put_strike (total_cost call_premium put_premium) in
      [lower_be; upper_be]
  | CallSpread _ buy_strike _ buy_premium sell_premium =>
      [fadd buy_strike (spread_net_debit buy_premium sell_premium)]
  | PutSpread _ buy_strike _ buy_premium sell_premium =>
      [fsub buy_strike (spread_net_debit buy_premium sell_premium)]
  | Butterfly _ low _ high low_premium middle_premium high_premium =>
      let d := butterfly_net_debit low_premium middle_premium high_premium in
      let lower_be := fadd low d in
      let upper_be := fsub high d in
      [lower_be; upper_be]
  end.

(** [_estimate_delta]; the literal [0.01] is the float nearest to it. *)
Definition _estimate_delta (s : OptionsStrategy) (current_price : Q) : Q :=
  let price_change := R (1 # 100) in
  let current_payoff := calculate_payoff s current_price in
  let new_payoff := calculate_payoff s (fadd current_price price_change) in
  fdiv (fsub new_payoff current_payoff) price_change.

End Rounded.
End Fl.

(** On results between [-M] and [M] the rounding [R] is off by at most
    [eta]. Binary64, rounding to nearest, is so with [eta] = 2^-53 x [M]
    for every [M] below the overflow threshold. *)
Definition rounds_within (R : Q -> Q) (eta M : Q) : Prop :=
  forall x, - M <= x /\ x <= M -> x - eta <= R x /\ R x <= x + eta.

(** Every strike, premium and credit of the strategy lies between [-B]
    and [B]. *)
Definition parameters_within (B : Q) (s : OptionsStrategy) : Prop :=
  let within x := - B <= x /\ x <= B in
  match s with
  | IronCondor _ short_call long_call short_put long_put net_credit =>
      within short_call /\ within long_call /\ within short_put
      /\ within long_put /\ within net_credit
  | Straddle _ strike call_premium put_premium =>
      within strike /\ within call_premium /\ within put_premium
  | Strangle _ call_strike put_strike call_premium put_premium =>
      within call_strike /\ within put_strike
      /\ within call_premium /\ within put_premium
  | CallSpread _ buy_strike sell_strike buy_premium sell_premium
  | PutSpread _ buy_strike sell_strike buy_premium sell_premium =>
      within buy_strike /\ within sell_strike
      /\ within buy_premium /\ within sell_premium
  | Butterfly _ low middle high low_premium middle_premium high_premium =>
      within low /\ within middle /\ within high
      /\ within low_premium /\ within middle_premium /\ within high_premium
  end.

(** A rounding to try the statements on: to the nearest multiple of
    1/1024, halves upward. *)
Definition round_to_grid (x : Q) : Q :=
  inject_Z (Qfloor (x * 1024 + (1 # 2))) / 1024.

(** Strategies whose premiums are not on that grid. *)
Definition dime_straddle : OptionsStrategy :=
  Straddle tsla_base 200 (1 # 10) (1 # 10).

Definition cent_call_spread : OptionsStrategy :=
  CallSpread aapl_base 150 160 (503 # 100) (101 # 100).

Definition cent_put_spread : OptionsStrategy :=
  PutSpread aapl_base 150 140 (503 # 100) (101 # 100).

Definition cent_butterfly : OptionsStrategy :=
  Butterfly aapl_base 140 150 160 (123 # 10) (51 # 10) (12 # 10).

Definition cent_iron_condor : OptionsStrategy :=
  IronCondor aapl_base 155 160 145 140 (255 # 100).

(** ** The exit rule in the words of the specification *)

(** The days to expiration counted from the entry of the position. *)
Definition days_to_expiration_at_entry (p : Position.t) (s : OptionsStrategy) : Z :=
  (expiration (base s) - Position.entry_date p)%Z.

(** The second exit test with the days to expiration taken at entry. *)
Definition held_half_of_days_at_entry (e : TradingEngine) (p : Position.t)
    (s : OptionsStrategy) : Prop :=
  inject_Z (days_to_expiration_at_entry p s) * (1 # 2)
  <= inject_Z (current_date e - Position.entry_date p).

(** ** Sample engines *)

(** The engine of [test_app.py]: the iron condor, then the straddle. The
    clock reads day 0. *)
Definition sample_engine : TradingEngine :=
  add_strategy sample_straddle (add_strategy sample_iron_condor (new_engine 0)).

(** An open position on AAPL, ten contracts, priced at 150. *)
Definition aapl_position : Position.t :=
  Position.mk "P0001" "AAPL" "IronCondor" 0 150 10 150 0.

Definition engine_holding_aapl : TradingEngine :=
  mkEngine 10000 [aapl_position] [] (strategies sample_engine) default_config 0 0.

(** A position on a symbol for which [sample_engine] has no strategy. *)
Definition msft_position : Position.t :=
  Position.mk "P0001" "MSFT" "IronCondor" 0 300 10 300 0.

Definition engine_holding_msft : TradingEngine :=
  mkEngine 10000 [msft_position] [] (strategies sample_engine) default_config 0 7.

(** The sample engine after its capital is set to -1001. *)
Definition overdrawn_engine : TradingEngine :=
  set_config (mkConfig (-(1001)) (2 # 100) 5 30) sample_engine.

(** An iron condor ten days from expiration and a call spread sixty days
    from it, in an engine whose first strategy is the straddle. *)
Definition short_dated_iron_condor : OptionsStrategy :=
  IronCondor (mkBase "NVDA" 150 10 0) 155 160 145 140 (5 # 2).

Definition long_dated_call_spread : OptionsStrategy :=
  CallSpread (mkBase "MSFT" 300 60 0) 300 310 6 2.

Definition mixed_engine : TradingEngine :=
  add_strategy long_dated_call_spread
    (add_strategy short_dated_iron_condor
       (add_strategy sample_straddle (new_engine 0))).

(** The sample engine with no capital. *)
Definition zero_capital_engine : TradingEngine :=
  set_config (mkConfig 0 (2 # 100) 5 30) sample_engine.

(** The sample engine run for two days, and a price path on which the
    second sample drawn is a rise of 25% and every other one is flat. *)
Definition two_day_engine : TradingEngine :=
  set_config (mkConfig 10000 (2 # 100) 5 2) sample_engine.

Definition jump_at_second_draw (k : nat) : Q :=
  if Nat.eqb k 1 then 1 # 4 else 0.

(** The straddle of the tests re-entered on simulated day 1 and seen on
    day 11 with the stock at 230; the clock reads day 0. *)
Definition tsla_position_day_1 : Position.t :=
  Position.mk "P0001" "TSLA" "Straddle" 1 200 7 230 21.

Definition engine_on_day_11 : TradingEngine :=
  mkEngine 10000 [tsla_position_day_1] [] (strategies sample_engine)
           default_config 11 0.

(** A price path on which the fourth sample drawn is a rise of 15% and
    every other one is flat, and the sample engine after the simulated
    days 0 to 11 on it. *)
Definition jump_at_fourth_draw (k : nat) : Q :=
  if Nat.eqb k 3 then 15 # 100 else 0.

Definition engine_after_day_11 : TradingEngine :=
  match simulation_days_from 0 jump_at_fourth_draw 12 0%Z
          (reset_state 0 sample_engine, 0%nat) with
  | Ok (e, _) => e
  | Raise _ => sample_engine
  end.

(** The engine holding two positions marked to market: the iron condor with
    the stock at 158, ahead of the straddle with the stock at 230. *)
Definition aapl_position_at_158 : Position.t :=
  Position.mk "P0001" "AAPL" "IronCondor" 0 150 10 158
              (calculate_payoff sample_iron_condor 158 * inject_Z 10).

Definition engine_holding_two : TradingEngine :=
  mkEngine 10000 [aapl_position_at_158; tsla_position_day_1] []
           (strategies sample_engine) default_config 11 0.

(** The engine as the two-day run leaves it before the results are
    computed. *)
Definition engine_after_two_days : TradingEngine :=
  match run_to_close 0 jump_at_second_draw 0 two_day_engine with
  | Ok (e, _) => e
  | Raise _ => two_day_engine
  end.

(** ** Facts about the Python primitives *)

Module PyFacts.

Lemma ltb_lt a b : Py.ltb a b = true <-> a < b.
Proof.
  unfold Py.ltb. rewrite negb_true_iff.
  split; intro H.
  - apply Qnot_le_lt. intro L. apply Qle_bool_iff in L. congruence.
  - destruct (Qle_bool b a) eqn:E; [|reflexivity].
    apply Qle_bool_iff in E. apply Qle_not_lt in E. contradiction.
Qed.

Lemma ltb_ge a b : Py.ltb a b = false <-> b <= a.
Proof.
  unfold Py.ltb. rewrite negb_false_iff. apply Qle_bool_iff.
Qed.

Lemma leb_le a b : Py.leb a b = true <-> a <= b.
Proof. apply Qle_bool_iff. Qed.

Lemma leb_gt a b : Py.leb a b = false <-> b < a.
Proof.
  unfold Py.leb. split; intro H.
  - apply Qnot_le_lt. intro L. apply Qle_bool_iff in L. congruence.
  - destruct (Qle_bool a b) eqn:E; [|reflexivity].
    apply Qle_bool_iff in E. apply Qle_not_lt in E. contradiction.
Qed.

End PyFacts.

(** Case analysis on every float comparison in the goal. *)
Ltac py_cases :=
  repeat match goal with
  | |- context [Py.ltb ?a ?b] =>
      let E := fresh "E" in
      destruct (Py.ltb a b) eqn:E;
      [apply PyFacts.ltb_lt in E | apply PyFacts.ltb_ge in E]
  | |- context [Py.leb ?a ?b] =>
      let E := fresh "E" in
      destruct (Py.leb a b) eqn:E;
      [apply PyFacts.leb_le in E | apply PyFacts.leb_gt in E]
  end.

(** ** Rounded arithmetic *)

(** The grid rounding is off by at most half a step, on every range. *)
Lemma round_to_grid_within (M : Q) : rounds_within round_to_grid (1 # 2048) M.
Proof.
  intros x _. unfold round_to_grid.
  pose proof (Qfloor_le (x * 1024 + (1 # 2))) as Hlo.
  pose proof (Qlt_floor (x * 1024 + (1 # 2))) as Hhi.
  rewrite inject_Z_plus in Hhi.
  set (n := inject_Z (Qfloor (x * 1024 + (1 # 2)))) in *.
  change (inject_Z 1) with 1 in Hhi.
  split.
  - apply Qle_shift_div_l; [reflexivity | lra].
  - apply Qle_shift_div_r; [reflexivity | lra].
Qed.

(** Without rounding the rounded payoff, break-even points and delta are
    the exact ones. *)
Lemma rounded_payoff_without_rounding (s : OptionsStrategy) (spot : Q) :
  Fl.calculate_payoff (fun x => x) s spot = calculate_payoff s spot.
Proof. destruct s; reflexivity. Qed.

Lemma rounded_break_evens_without_rounding (s : OptionsStrategy) :
  Fl.get_break_even_points (fun x => x) s = get_break_even_points s.
Proof. destruct s; reflexivity. Qed.

Lemma rounded_delta_without_rounding (s : OptionsStrategy) (price : Q) :
  Fl._estimate_delta (fun x => x) s price = _estimate_delta s price.
Proof.
  unfold Fl._estimate_delta, _estimate_delta, Fl.fdiv, Fl.fsub, Fl.fadd.
  rewrite !rounded_payoff_without_rounding. reflexivity.
Qed.

(** One rounded operation of the goal whose operands are free of rounding
    is replaced by a number within [eta] of its exact result. *)
Ltac fl_round :=
  match goal with
  | Hround : rounds_within ?R ?eta _ |- context [?R ?t] =>
      lazymatch t with
      | context [R _] => fail
      | context [if _ then _ else _] => fail
      | _ => idtac
      end;
      let H := fresh "Hr" in
      assert (H : t - eta <= R t /\ R t <= t + eta)
        by (apply Hround; split; lra);
      destruct H;
      let r := fresh "r" in
      set (r := R t) in *; clearbody r
  end.

(** Case analysis on one float comparison of the goal. *)
Ltac fl_case :=
  match goal with
  | |- context [Py.ltb ?a ?b] =>
      let E := fresh "E" in
      destruct (Py.ltb a b) eqn:E;
      [apply PyFacts.ltb_lt in E | apply PyFacts.ltb_ge in E]
  | |- context [Py.leb ?a ?b] =>
      let E := fresh "E" in
      destruct (Py.leb a b) eqn:E;
      [apply PyFacts.leb_le in E | apply PyFacts.leb_gt in E]
  end.

Ltac fl_unfold :=
  cbn [Fl.calculate_payoff];
  unfold Fl.option_payoff, Fl.total_cost, Fl.spread_net_debit,
    Fl.butterfly_net_debit, Fl.fadd, Fl.fsub, Fl.fmul, Py.max, Py.min.

(** Every rounding bounded, every comparison split, the rest is linear. *)
Ltac fl_solve := fl_unfold; repeat first [fl_round | fl_case]; split; lra.

Ltac split_hyps :=
  repeat match goal with
  | H : _ \/ _ |- _ => destruct H as [H | H]
  | H : False |- _ => destruct H
  | H : _ /\ _ |- _ => destruct H
  end.

(** ** Payoff bounds *)

Section PayoffBounds.

Variable s : OptionsStrategy.
Hypothesis ordered : legs_ordered s.

Lemma payoff_ge_neg_max_loss (spot : Q) :
  - get_max_loss s <= calculate_payoff s spot.
Proof using ordered.
  destruct s; cbn in *; unfold Py.max, Py.min, total_cost in *;
    py_cases; lra.
Qed.

Lemma payoff_le_max_profit (spot : Q) :
  xle (calculate_payoff s spot) (get_max_profit s).
Proof using ordered.
  destruct s; cbn in *; unfold Py.max, Py.min in *;
    py_cases; solve [lra | exact I].
Qed.

End PayoffBounds.

(** C1, as stated, fails: the constructors accept any strikes, and on the
    butterfly with strikes 90/100/120 and net debit 2 the payoff at spot 120
    is -12, below minus the declared maximum loss of 2. *)
Lemma payoff_below_max_loss_wide_butterfly :
  0 <= 120 /\
  get_max_loss wide_butterfly == 2 /\
  calculate_payoff wide_butterfly 120 == -(12) /\
  ~ (- get_max_loss wide_butterfly <= calculate_payoff wide_butterfly 120).
Proof.
  repeat split; try reflexivity.
  - discriminate.
  - intro H. vm_compute in H. apply H. reflexivity.
Qed.

(** C1, amended: for every strategy variant whose strikes are in the
    conventional order ([legs_ordered]) and every spot price >= 0, the
    payoff is at least minus [get_max_loss], and at most [get_max_profit]
    when that is finite. *)
Theorem payoff_within_declared_bounds (s : OptionsStrategy) (spot : Q) :
  legs_ordered s -> 0 <= spot ->
  - get_max_loss s <= calculate_payoff s spot
  /\ forall m, get_max_profit s = Fin m -> calculate_payoff s spot <= m.
Proof.
  intros Hord _. split.
  - now apply payoff_ge_neg_max_loss.
  - intros m Hm. pose proof (payoff_le_max_profit s Hord spot) as H.
    rewrite Hm in H. exact H.
Qed.

Lemma payoff_within_declared_bounds_witness :
  - get_max_loss sample_iron_condor <= calculate_payoff sample_iron_condor 150
  /\ forall m, get_max_profit sample_iron_condor = Fin m ->
               calculate_payoff sample_iron_condor 150 <= m.
Proof.
  apply (payoff_within_declared_bounds sample_iron_condor 150).
  - cbn. repeat split; discriminate.
  - discriminate.
Defined.

(** ** Break-even points *)

(** C2, as stated, fails: the iron condor sold for a credit of 6 on spreads
    5 wide declares a break-even at 161, where the payoff is 1. *)
Lemma break_even_payoff_nonzero_rich_iron_condor :
  In 161 (get_break_even_points rich_iron_condor)
  /\ ~ calculate_payoff rich_iron_condor 161 == 0.
Proof.
  split.
  - cbn. right. left. reflexivity.
  - intro H. vm_compute in H. discriminate H.
Qed.

(** Even within the widths the payoff at a declared break-even is not
    exactly 0 once the arithmetic rounds: on the grid of 1/1024 the
    straddle struck at 200 for premiums of 0.1 and 0.1 pays one grid step
    at its upper break-even. *)
Lemma break_even_payoff_one_grid_step_off :
  In (Fl.fadd round_to_grid 200 (Fl.total_cost round_to_grid (1 # 10) (1 # 10)))
     (Fl.get_break_even_points round_to_grid dime_straddle)
  /\ Fl.calculate_payoff round_to_grid dime_straddle
       (Fl.fadd round_to_grid 200 (Fl.total_cost round_to_grid (1 # 10) (1 # 10)))
     == 1 # 1024.
Proof.
  split; [right; left; reflexivity | vm_compute; reflexivity].
Qed.

(** C2, amended: for every strategy variant whose net credit or debit lies
    between zero and the width it is set against ([premium_within_width]),
    the payoff at every price of [get_break_even_points] is 0 up to the
    rounding of the float arithmetic: when every operation rounds by at
    most [eta], payoff and break-even both computed with that rounding,
    the payoff lies between -11 x [eta] and 11 x [eta]. *)
Theorem payoff_near_zero_at_break_even (R : Q -> Q) (eta M B : Q)
    (s : OptionsStrategy) (be : Q) :
  rounds_within R eta M -> 0 <= eta -> 16 * B + 16 * eta <= M ->
  parameters_within B s ->
  premium_within_width s ->
  In be (Fl.get_break_even_points R s) ->
  - (11 * eta) <= Fl.calculate_payoff R s be
  /\ Fl.calculate_payoff R s be <= 11 * eta.
Proof.
  intros Hround Heta HM Hb Hw Hin.
  destruct s; cbn in Hb, Hw, Hin;
    unfold total_cost, spread_net_debit, butterfly_net_debit in Hw;
    split_hyps; subst be; fl_solve.
Qed.

Lemma payoff_near_zero_at_break_even_witness :
  - (11 * (1 # 2048))
  <= Fl.calculate_payoff round_to_grid dime_straddle
       (Fl.fadd round_to_grid 200 (Fl.total_cost round_to_grid (1 # 10) (1 # 10)))
  /\ Fl.calculate_payoff round_to_grid dime_straddle
       (Fl.fadd round_to_grid 200 (Fl.total_cost round_to_grid (1 # 10) (1 # 10)))
     <= 11 * (1 # 2048).
Proof.
  apply (payoff_near_zero_at_break_even round_to_grid (1 # 2048) 10000 201
           dime_straddle).
  - apply round_to_grid_within.
  - discriminate.
  - discriminate.
  - cbn. repeat split; discriminate.
  - cbn. discriminate.
  - right. left. reflexivity.
Defined.

(** ** Closing a position *)

Lemma position_eqb_refl (p : Position.t) : Position.eqb p p = true.
Proof.
  unfold Position.eqb.
  rewrite !String.eqb_refl, !Z.eqb_refl, !Qeq_bool_refl. reflexivity.
Qed.

(** [remove] on a list that holds the position drops its first equal. *)
Lemma list_remove_In (p : Position.t) (l : list Position.t) :
  In p l ->
  exists l1 q l2,
    l = l1 ++ q :: l2
    /\ Position.eqb q p = true
    /\ (forall x, In x l1 -> Position.eqb x p = false)
    /\ list_remove p l = Some (l1 ++ l2).
Proof.
  induction l as [|a l IH]; intros Hin; [destruct Hin|].
  cbn [list_remove]. destruct (Position.eqb a p) eqn:Ea.
  - exists [], a, l. cbn. repeat split; auto. intros x [].
  - destruct Hin as [-> | Hin].
    + rewrite position_eqb_refl in Ea. discriminate.
    + destruct (IH Hin) as (l1 & q & l2 & -> & Hq & Hl1 & Hrm).
      exists (a :: l1), q, l2. rewrite Hrm. cbn. repeat split; auto.
      intros x [<- | Hx]; auto.
Qed.

(** C3, as stated, fails: closing a position also moves [trade_counter],
    a field of the ledger. *)
Lemma close_position_moves_trade_counter :
  In aapl_position (positions engine_holding_aapl)
  /\ trade_counter (fst (close_position engine_holding_aapl aapl_position))
     <> trade_counter engine_holding_aapl.
Proof.
  split.
  - left. reflexivity.
  - cbn. discriminate.
Qed.

(** C3, amended: closing an open position whose symbol matches a strategy
    of the engine adds the realized P&L (payoff at the position's current
    price times quantity) to cash, appends a new Trade with that P&L,
    removes the first position equal to it from the open list and adds one
    to the trade counter; the configuration and the date do not change. *)
Theorem close_position_ledger (e : TradingEngine) (p : Position.t)
    (strategy : OptionsStrategy) :
  In p (positions e) ->
  find_strategy (strategies e) (Position.symbol p) = Some strategy ->
  let pnl :=
    calculate_payoff strategy (Position.current_price p)
    * inject_Z (Position.quantity p) in
  let e' := fst (close_position e p) in
  exists trade l1 q l2,
    snd (close_position e p) = Ok (Some trade)
    /\ cash e' = cash e + pnl
    /\ trades e' = trades e ++ [trade]
    /\ Trade.pnl trade = pnl
    /\ positions e = l1 ++ q :: l2
    /\ Position.eqb q p = true
    /\ (forall x, In x l1 -> Position.eqb x p = false)
    /\ positions e' = l1 ++ l2
    /\ trade_counter e' = S (trade_counter e)
    /\ config e' = config e
    /\ current_date e' = current_date e.
Proof.
  intros Hin Hfind pnl e'. subst pnl e'.
  destruct (list_remove_In p (positions e) Hin)
    as (l1 & q & l2 & Hsplit & Hq & Hl1 & Hrm).
  unfold close_position. rewrite Hfind, Hrm. cbn.
  eexists; exists l1, q, l2. repeat split; auto.
Qed.

Lemma close_position_ledger_witness :
  let e' := fst (close_position engine_holding_aapl aapl_position) in
  exists trade l1 q l2,
    snd (close_position engine_holding_aapl aapl_position) = Ok (Some trade)
    /\ cash e' = 10000 + calculate_payoff sample_iron_condor 150 * inject_Z 10
    /\ trades e' = [] ++ [trade]
    /\ Trade.pnl trade = calculate_payoff sample_iron_condor 150 * inject_Z 10
    /\ [aapl_position] = l1 ++ q :: l2
    /\ Position.eqb q aapl_position = true
    /\ (forall x, In x l1 -> Position.eqb x aapl_position = false)
    /\ positions e' = l1 ++ l2
    /\ trade_counter e' = 1%nat
    /\ config e' = default_config
    /\ current_date e' = 0%Z.
Proof.
  apply (close_position_ledger engine_holding_aapl aapl_position
                               sample_iron_condor).
  - left. reflexivity.
  - reflexivity.
Defined.

(** C9: [close_position] on a position whose symbol matches no strategy of
    the engine returns [None] and leaves the engine, and so the whole
    ledger, as it was. *)
Theorem close_position_without_strategy (e : TradingEngine) (p : Position.t) :
  find_strategy (strategies e) (Position.symbol p) = None ->
  close_position e p = (e, Ok None)
  /\ cash (fst (close_position e p)) = cash e
  /\ positions (fst (close_position e p)) = positions e
  /\ trades (fst (close_position e p)) = trades e
  /\ trade_counter (fst (close_position e p)) = trade_counter e.
Proof.
  intros Hnone. unfold close_position. rewrite Hnone. cbn. repeat split.
Qed.

Lemma close_position_without_strategy_witness :
  close_position engine_holding_msft msft_position
  = (engine_holding_msft, Ok None)
  /\ cash (fst (close_position engine_holding_msft msft_position)) = 10000
  /\ positions (fst (close_position engine_holding_msft msft_position))
     = [msft_position]
  /\ trades (fst (close_position engine_holding_msft msft_position)) = []
  /\ trade_counter (fst (close_position engine_holding_msft msft_position))
     = 7%nat.
Proof.
  apply (close_position_without_strategy engine_holding_msft msft_position).
  reflexivity.
Defined.

(** ** Position sizing *)

(** On a non-negative float, [int] is [floor]. *)
Lemma int_floor_nonneg (x : Q) : 0 <= x -> Py.int x = Py.floor x.
Proof.
  intros Hx. unfold Py.int, Py.floor.
  apply Z.quot_div_nonneg; [|reflexivity].
  unfold Qle in Hx. cbn in Hx. lia.
Qed.

Lemma floor_nonneg (x : Q) : 0 <= x -> (0 <= Py.floor x)%Z.
Proof.
  intros Hx. unfold Py.floor. apply Z.div_pos; [|reflexivity].
  unfold Qle in Hx. cbn in Hx. lia.
Qed.

(** A size that is not positive blocks the entry, whatever the cash. *)
Lemma nonpositive_size_blocks_entry (today : Z) (e : TradingEngine)
    (s : OptionsStrategy) :
  (calculate_position_size e s <= 0)%Z ->
  should_enter_trade today e s = Ok false.
Proof.
  intros H. unfold should_enter_trade.
  apply Z.leb_le in H. rewrite H. reflexivity.
Qed.

(** C4, as stated, fails: with cash -1001 the quotient is -8.008, which
    [int] truncates to -8 where [floor] gives -9, and the size returned is
    -8, not 0. *)
Lemma position_size_negative_when_overdrawn :
  calculate_position_size overdrawn_engine sample_iron_condor = (-8)%Z
  /\ Z.min (Py.floor (cash overdrawn_engine
                      * risk_per_trade (config overdrawn_engine)
                      / Qabs (get_max_loss sample_iron_condor))) 10 = (-9)%Z
  /\ (calculate_position_size overdrawn_engine sample_iron_condor <= 0)%Z
  /\ calculate_position_size overdrawn_engine sample_iron_condor <> 0%Z.
Proof.
  repeat split; vm_compute; discriminate.
Qed.

(** C4, amended: when cash x risk_per_trade is not negative, the position
    size is floor(cash x risk_per_trade / |max_loss|) capped at 10 units;
    when |max_loss| <= 0 the size is 0; a size <= 0 is then 0; and every
    size <= 0 blocks the entry. With cash 10000, risk_per_trade 0.02 and
    max_loss 2.50 the size is min(80, 10) = 10. *)
Theorem position_size_rule (today : Z) (e : TradingEngine) (s : OptionsStrategy) :
  0 <= cash e * risk_per_trade (config e) ->
  let max_loss := Qabs (get_max_loss s) in
  let size := calculate_position_size e s in
  (max_loss <= 0 -> size = 0%Z)
  /\ (0 < max_loss ->
      size = Z.min (Py.floor (cash e * risk_per_trade (config e) / max_loss)) 10)
  /\ ((size <= 0)%Z -> size = 0%Z /\ should_enter_trade today e s = Ok false)
  /\ (cash sample_engine == 10000
      /\ risk_per_trade (config sample_engine) == 2 # 100
      /\ get_max_loss sample_iron_condor == 5 # 2
      /\ Py.floor (cash sample_engine * risk_per_trade (config sample_engine)
                   / Qabs (get_max_loss sample_iron_condor)) = 80%Z
      /\ calculate_position_size sample_engine sample_iron_condor = Z.min 80 10
      /\ Z.min 80 10 = 10%Z).
Proof.
  intros Hrisk max_loss size.
  assert (Hzero : max_loss <= 0 -> size = 0%Z).
  { intros H. subst size. unfold calculate_position_size. fold max_loss.
    apply PyFacts.leb_le in H. rewrite H. reflexivity. }
  assert (Hpos : 0 < max_loss ->
            size = Z.min (Py.floor (cash e * risk_per_trade (config e) / max_loss)) 10).
  { intros H. subst size. unfold calculate_position_size. fold max_loss.
    apply PyFacts.leb_gt in H as Hb. rewrite Hb.
    rewrite int_floor_nonneg; [reflexivity|].
    apply Qle_shift_div_l; [exact H | lra]. }
  split; [exact Hzero|]. split; [exact Hpos|]. split.
  - intros Hsize. split; [|now apply nonpositive_size_blocks_entry].
    destruct (Qlt_le_dec 0 max_loss) as [Hm | Hm]; [|auto].
    rewrite (Hpos Hm) in *.
    assert (0 <= Py.floor (cash e * risk_per_trade (config e) / max_loss))%Z.
    { apply floor_nonneg. apply Qle_shift_div_l; [exact Hm | lra]. }
    lia.
  - repeat split.
Qed.

Lemma position_size_rule_witness :
  let max_loss := Qabs (get_max_loss sample_iron_condor) in
  let size := calculate_position_size sample_engine sample_iron_condor in
  (max_loss <= 0 -> size = 0%Z)
  /\ (0 < max_loss ->
      size = Z.min (Py.floor (cash sample_engine
                              * risk_per_trade (config sample_engine)
                              / max_loss)) 10)
  /\ ((size <= 0)%Z ->
      size = 0%Z /\ should_enter_trade 0 sample_engine sample_iron_condor = Ok false)
  /\ (cash sample_engine == 10000
      /\ risk_per_trade (config sample_engine) == 2 # 100
      /\ get_max_loss sample_iron_condor == 5 # 2
      /\ Py.floor (cash sample_engine * risk_per_trade (config sample_engine)
                   / Qabs (get_max_loss sample_iron_condor)) = 80%Z
      /\ calculate_position_size sample_engine sample_iron_condor = Z.min 80 10
      /\ Z.min 80 10 = 10%Z).
Proof.
  apply (position_size_rule 0 sample_engine sample_iron_condor).
  vm_compute. discriminate.
Defined.

(** ** Exit rule *)

(** C5, as stated, fails in its second test: the code compares the days
    held with half of [days_to_expiration], which counts from the date of
    the real clock and not from the entry of the position. The straddle of
    the tests, expiring on day 21, entered on simulated day 1 and seen on
    day 11 at a P&L of 21, has been held 10 days, half of the 20 days it
    had at entry; the code keeps it, since 10 < 0.5 x 21. *)
Lemma exit_rule_reads_the_clock_not_the_entry :
  In tsla_position_day_1 (positions engine_on_day_11)
  /\ find_strategy (strategies engine_on_day_11)
       (Position.symbol tsla_position_day_1) = Some sample_straddle
  /\ marked_to_market (strategies engine_on_day_11) tsla_position_day_1
  /\ days_to_expiration_at_entry tsla_position_day_1 sample_straddle = 20%Z
  /\ (current_date engine_on_day_11
      - Position.entry_date tsla_position_day_1 = 10)%Z
  /\ held_half_of_days_at_entry engine_on_day_11 tsla_position_day_1
       sample_straddle
  /\ should_exit_trade 0 engine_on_day_11 tsla_position_day_1 sample_straddle
     = false.
Proof.
  split; [left; reflexivity|].
  split; [reflexivity|].
  split; [intros st Hst; vm_compute in Hst; injection Hst as <-; reflexivity|].
  split; [reflexivity|].
  split; [reflexivity|].
  split; [discriminate | reflexivity].
Qed.

(** Such a position arises in a run. On the path [jump_at_fourth_draw] the
    straddle entered on day 0 is closed on day 1 on its loss limit and
    entered again the same day; the stock rises to 230 on day 2 and stays;
    after day 11 the position entered on day 1 is still open, first of the
    book. *)
Lemma position_kept_after_half_of_days_at_entry :
  exists k p rest s,
    simulation_days_from 0 jump_at_fourth_draw 12 0%Z
      (reset_state 0 sample_engine, 0%nat)
    = Ok (engine_after_day_11, k)
    /\ positions engine_after_day_11 = p :: rest
    /\ find_strategy (strategies engine_after_day_11) (Position.symbol p)
       = Some s
    /\ Position.symbol p = "TSLA"%string
    /\ Position.entry_date p = 1%Z
    /\ current_date engine_after_day_11 = 11%Z
    /\ days_to_expiration_at_entry p s = 20%Z
    /\ held_half_of_days_at_entry engine_after_day_11 p s
    /\ should_exit_trade 0 engine_after_day_11 p s = false.
Proof.
  do 4 eexists.
  split; [vm_compute; reflexivity|].
  split; [vm_compute; reflexivity|].
  split; [vm_compute; reflexivity|].
  repeat split; vm_compute; congruence.
Qed.

(** C5, amended: the exit decision tries, in this order and stopping at the
    first that holds, (1) the strategy is expired, (2) days held since
    entry >= 0.5 x the strategy's days to expiration counted from the date
    of the real clock, (3) unrealized P&L >= 0.5 x max_profit, tested only
    when max_profit is finite, (4) unrealized P&L <= 0.5 x max_loss; the
    position exits if and only if one of the four holds. *)
Theorem should_exit_trade_rules (today : Z) (e : TradingEngine)
    (p : Position.t) (s : OptionsStrategy) :
  should_exit_trade today e p s
  = (exit_expired today s
     || (exit_held_too_long today e p s
         || (exit_profit_target p s || exit_loss_limit p s)))
  /\ (should_exit_trade today e p s = true <->
      (days_to_expiration today s <= 0)%Z
      \/ inject_Z (days_to_expiration today s) * (1 # 2)
         <= inject_Z (current_date e - Position.entry_date p)
      \/ (exists max_profit,
            get_max_profit s = Fin max_profit
            /\ max_profit * (1 # 2) <= Position.unrealized_pnl p)
      \/ Position.unrealized_pnl p <= get_max_loss s * (1 # 2)).
Proof.
  assert (Heq : should_exit_trade today e p s
                = (exit_expired today s
                   || (exit_held_too_long today e p s
                       || (exit_profit_target p s || exit_loss_limit p s)))).
  { unfold should_exit_trade.
    destruct (exit_expired today s), (exit_held_too_long today e p s),
      (exit_profit_target p s), (exit_loss_limit p s); reflexivity. }
  split; [exact Heq|].
  rewrite Heq, !orb_true_iff.
  unfold exit_expired, is_expired, exit_held_too_long, exit_profit_target,
    exit_loss_limit.
  rewrite Z.leb_le, !PyFacts.leb_le.
  assert (Hprofit :
    match get_max_profit s with
    | Fin max_profit => Py.leb (max_profit * (1 # 2)) (Position.unrealized_pnl p)
    | PInf => false
    end = true <->
    exists max_profit, get_max_profit s = Fin max_profit
                       /\ max_profit * (1 # 2) <= Position.unrealized_pnl p).
  { destruct (get_max_profit s) as [m|].
    - rewrite PyFacts.leb_le. split.
      + intros H. exists m. split; [reflexivity | exact H].
      + intros (m' & Hm & H). injection Hm as <-. exact H.
    - split; [discriminate|]. intros (m' & Hm & _). discriminate. }
  rewrite Hprofit. tauto.
Qed.

(** ** Entry rule *)

(** The entry loop opens a position for a strategy exactly when [enters]
    says so. *)
Lemma enter_each_cons (today : Z) (s : OptionsStrategy)
    (rest : list OptionsStrategy) (e : TradingEngine) (go : bool) :
  enters today e s = Ok go ->
  enter_each today (s :: rest) e
  = enter_each today rest (if go then open_position e s else e).
Proof.
  intros H. cbn [enter_each]. rewrite H. reflexivity.
Qed.

(** What [should_enter_trade] has checked when it answers [True]. *)
Lemma should_enter_trade_true (today : Z) (e : TradingEngine)
    (s : OptionsStrategy) :
  should_enter_trade today e s = Ok true ->
  (0 < calculate_position_size e s)%Z
  /\ (Z.of_nat (List.length (positions e)) < max_concurrent_trades (config e))%Z
  /\ is_expired today s = false
  /\ exists first rest,
       strategies e = first :: rest
       /\ if isinstance_type_of s first && has_net_credit s
          then (30 <= days_to_expiration today s <= 45)%Z
          else if has_total_cost s
          then (15 <= days_to_expiration today s <= 30)%Z
          else True.
Proof.
  unfold should_enter_trade. intros H.
  destruct (calculate_position_size e s <=? 0)%Z eqn:Hsize;
    [discriminate|].
  destruct (max_concurrent_trades (config e)
            <=? Z.of_nat (List.length (positions e)))%Z eqn:Hmax;
    [discriminate|].
  destruct (is_expired today s) eqn:Hexp; [discriminate|].
  apply Z.leb_gt in Hsize, Hmax.
  destruct (strategies e) as [|first rest]; [discriminate|].
  repeat split; auto. exists first, rest. split; [reflexivity|].
  destruct (isinstance_type_of s first && has_net_credit s);
    [|destruct (has_total_cost s); [|exact I]];
    injection H as H; apply andb_true_iff in H as [Hlo Hhi];
    apply Z.leb_le in Hlo, Hhi; split; assumption.
Qed.

(** C6, as stated, fails: in an engine whose first strategy is a straddle,
    an iron condor 10 days from expiration is entered, and so is a call
    spread 60 days from expiration. *)
Lemma entry_outside_window_mixed_engine :
  enters 0 mixed_engine short_dated_iron_condor = Ok true
  /\ has_net_credit short_dated_iron_condor = true
  /\ days_to_expiration 0 short_dated_iron_condor = 10%Z
  /\ ~ (30 <= days_to_expiration 0 short_dated_iron_condor <= 45)%Z
  /\ enters 0 mixed_engine long_dated_call_spread = Ok true
  /\ days_to_expiration 0 long_dated_call_spread = 60%Z
  /\ ~ (15 <= days_to_expiration 0 long_dated_call_spread <= 30)%Z
  /\ ~ (30 <= days_to_expiration 0 long_dated_call_spread <= 45)%Z.
Proof.
  repeat split; try reflexivity; cbn; lia.
Qed.

(** C6, amended: a strategy is entered on a simulated day only if its
    position size is > 0, the number of open positions is below
    max_concurrent_trades, it is not expired, no open position has its
    symbol, its days to expiration are 15 to 30 inclusive when it is a
    Straddle or a Strangle, and 30 to 45 inclusive when it is an Iron Condor
    and the first strategy of the engine is one too. Call Spread, Put
    Spread and Butterfly have no window. *)
Theorem entry_conditions (today : Z) (e : TradingEngine) (s : OptionsStrategy) :
  enters today e s = Ok true ->
  (0 < calculate_position_size e s)%Z
  /\ (Z.of_nat (List.length (positions e)) < max_concurrent_trades (config e))%Z
  /\ is_expired today s = false
  /\ (forall p, In p (positions e) -> Position.symbol p <> symbol (base s))
  /\ (has_total_cost s = true ->
      (15 <= days_to_expiration today s <= 30)%Z)
  /\ (has_net_credit s = true ->
      forall first rest,
        strategies e = first :: rest ->
        isinstance_type_of s first = true ->
        (30 <= days_to_expiration today s <= 45)%Z).
Proof.
  intros H. unfold enters in H.
  destruct (should_enter_trade today e s) as [[|]|] eqn:Hgo;
    cbn in H; try discriminate.
  destruct (should_enter_trade_true today e s Hgo)
    as (Hsize & Hmax & Hexp & first & rest & Hstrats & Hwin).
  split; [exact Hsize|]. split; [exact Hmax|]. split; [exact Hexp|].
  split; [|split].
  - intros p Hp Heq.
    destruct (find _ (positions e)) eqn:Hf; [discriminate|].
    apply find_none with (x := p) in Hf; [|exact Hp].
    cbn in Hf. rewrite Heq, String.eqb_refl in Hf. discriminate.
  - intros Htc.
    replace (isinstance_type_of s first && has_net_credit s) with false in Hwin
      by (destruct s; try discriminate Htc; cbn; now rewrite andb_false_r).
    rewrite Htc in Hwin. exact Hwin.
  - intros Hnc first' rest' Hstrats' Hinst.
    rewrite Hstrats in Hstrats'. injection Hstrats' as <- <-.
    rewrite Hinst, Hnc in Hwin. exact Hwin.
Qed.

Lemma entry_conditions_witness :
  (0 < calculate_position_size sample_engine sample_iron_condor)%Z
  /\ (Z.of_nat (List.length (positions sample_engine))
      < max_concurrent_trades (config sample_engine))%Z
  /\ is_expired 0 sample_iron_condor = false
  /\ (forall p, In p (positions sample_engine) ->
                Position.symbol p <> symbol (base sample_iron_condor))
  /\ (has_total_cost sample_iron_condor = true ->
      (15 <= days_to_expiration 0 sample_iron_condor <= 30)%Z)
  /\ (has_net_credit sample_iron_condor = true ->
      forall first rest,
        strategies sample_engine = first :: rest ->
        isinstance_type_of sample_iron_condor first = true ->
        (30 <= days_to_expiration 0 sample_iron_condor <= 45)%Z).
Proof.
  apply (entry_conditions 0 sample_engine sample_iron_condor).
  vm_compute. reflexivity.
Defined.

(** ** Risk/reward ratio *)

Lemma Qabs_zero_iff (x : Q) : Qabs x == 0 <-> x == 0.
Proof.
  split; intros H.
  - revert H. apply Qabs_case; intros; lra.
  - rewrite H. reflexivity.
Qed.

(** C7, as stated, fails: for the straddle of the tests, max_loss is 27
    and max_profit is infinite, so max_profit / |max_loss| is infinite, but
    the analyzer answers 0. *)
Lemma risk_reward_of_straddle_is_zero :
  ~ get_max_loss sample_straddle == 0
  /\ risk_reward_ratio_spec sample_straddle = PInf
  /\ _calculate_risk_reward_ratio sample_straddle = Fin 0
  /\ ~ xeq (_calculate_risk_reward_ratio sample_straddle)
           (risk_reward_ratio_spec sample_straddle).
Proof.
  repeat split; try reflexivity.
  - intros H. vm_compute in H. discriminate H.
  - intros H. vm_compute in H. exact H.
Qed.

(** C7, amended: the analyzer's risk_reward_ratio equals
    max_profit / |max_loss| whenever max_loss <> 0 and max_profit is finite,
    and 0 whenever max_loss <> 0 and max_profit is infinite; when
    max_loss = 0 it equals +inf if max_profit > 0 and 0 otherwise. *)
Theorem risk_reward_ratio_cases (s : OptionsStrategy) :
  (~ get_max_loss s == 0 ->
   forall max_profit, get_max_profit s = Fin max_profit ->
     _calculate_risk_reward_ratio s = Fin (max_profit / Qabs (get_max_loss s)))
  /\ (~ get_max_loss s == 0 ->
      get_max_profit s = PInf ->
      _calculate_risk_reward_ratio s = Fin 0)
  /\ (get_max_loss s == 0 ->
      _calculate_risk_reward_ratio s
      = if xpositive (get_max_profit s) then PInf else Fin 0).
Proof.
  unfold _calculate_risk_reward_ratio.
  destruct (Qeq_bool (Qabs (get_max_loss s)) 0) eqn:Hz.
  - apply Qeq_bool_iff in Hz. apply (proj1 (Qabs_zero_iff _)) in Hz.
    repeat split; intros; try contradiction; reflexivity.
  - apply Qeq_bool_neq in Hz.
    repeat split.
    + intros _ m Hm. rewrite Hm. reflexivity.
    + intros _ Hm. rewrite Hm. reflexivity.
    + intros H. apply (proj2 (Qabs_zero_iff _)) in H. contradiction.
Qed.

Lemma risk_reward_ratio_cases_witness :
  _calculate_risk_reward_ratio sample_iron_condor
  = Fin ((5 # 2) / Qabs (get_max_loss sample_iron_condor))
  /\ _calculate_risk_reward_ratio sample_straddle = Fin 0.
Proof.
  split.
  - apply (risk_reward_ratio_cases sample_iron_condor).
    + intros H. vm_compute in H. discriminate H.
    + reflexivity.
  - apply (risk_reward_ratio_cases sample_straddle).
    + intros H. vm_compute in H. discriminate H.
    + reflexivity.
Defined.

(** ** Results of a run *)

Lemma int_of_zero (x : Q) : x == 0 -> Py.int x = 0%Z.
Proof.
  unfold Qeq, Py.int. cbn. intros H.
  replace (Qnum x) with 0%Z by lia. reflexivity.
Qed.

(** Without cash no position can be sized. *)
Lemma no_cash_no_size (e : TradingEngine) (s : OptionsStrategy) :
  cash e == 0 -> calculate_position_size e s = 0%Z.
Proof.
  intros H. unfold calculate_position_size.
  destruct (Py.leb (Qabs (get_max_loss s)) 0); [reflexivity|].
  rewrite int_of_zero; [reflexivity|].
  rewrite H. unfold Qdiv. ring.
Qed.

Lemma enter_each_blocked (today : Z) (ss : list OptionsStrategy)
    (e : TradingEngine) :
  (forall s, (calculate_position_size e s <= 0)%Z) ->
  enter_each today ss e = Ok e.
Proof.
  intros Hsize. induction ss as [|s ss IH]; [reflexivity|].
  cbn [enter_each]. unfold enters.
  rewrite (nonpositive_size_blocks_entry today e s (Hsize s)).
  cbn. exact IH.
Qed.

(** A day on which the engine has neither cash nor positions only moves
    the date. *)
Lemma idle_day (today : Z) (rnd : nat -> Q) (day : Z) (e : TradingEngine)
    (k : nat) :
  cash e == 0 -> positions e = [] ->
  simulation_day today rnd day (e, k)
  = Ok (set_current_date (today + day) e, k).
Proof.
  intros Hcash Hpos. destruct e as [c ps ts ss cfg d n]. cbn in Hcash, Hpos.
  subst ps. unfold simulation_day, set_current_date, update_positions.
  cbn [update_positions_loop positions strategies cash trades config
       current_date trade_counter filter close_each bind].
  rewrite enter_each_blocked; [reflexivity|].
  intros s. rewrite no_cash_no_size; [lia | exact Hcash].
Qed.

Lemma idle_days (today : Z) (rnd : nat -> Q) (n : nat) :
  forall (day : Z) (e : TradingEngine) (k : nat),
    cash e == 0 -> positions e = [] ->
    exists d,
      simulation_days_from today rnd n day (e, k)
      = Ok (set_current_date d e, k).
Proof.
  induction n as [|n IH]; intros day e k Hcash Hpos.
  - exists (current_date e). destruct e. reflexivity.
  - cbn [simulation_days_from]. rewrite idle_day by assumption. cbn [bind].
    destruct (IH (day + 1)%Z (set_current_date (today + day) e) k)
      as (d & Hd); [exact Hcash | exact Hpos |].
    exists d. rewrite Hd. reflexivity.
Qed.

(** A run that closed no trade and has capital reports zeros. *)
Lemma results_without_trades (e : TradingEngine) :
  trades e = [] -> ~ initial_capital (config e) == 0 ->
  exists r,
    calculate_results e = Ok r
    /\ Result.total_trades r = 0%nat
    /\ Result.winning_trades r = 0%nat
    /\ Result.losing_trades r = 0%Z
    /\ Result.win_rate r = 0.
Proof.
  intros Ht Hcap. unfold calculate_results. rewrite Ht.
  destruct (Qeq_bool (initial_capital (config e)) 0) eqn:Hz.
  - apply Qeq_bool_iff in Hz. contradiction.
  - eexists. split; [reflexivity|]. cbn. repeat split.
Qed.

(** The win rate of a run that closed a trade, with the winners the trades
    of positive P&L. *)
Lemma win_rate_of_results (e : TradingEngine) (r : Result.t) :
  calculate_results e = Ok r ->
  Result.total_trades r = List.length (trades e)
  /\ Result.winning_trades r = List.length (filter is_winner (trades e))
  /\ ((0 < Result.total_trades r)%nat ->
      Result.win_rate r
      = inject_Z (Z.of_nat (Result.winning_trades r))
        / inject_Z (Z.of_nat (Result.total_trades r)) * 100).
Proof.
  unfold calculate_results.
  destruct (Qeq_bool (initial_capital (config e)) 0); [discriminate|].
  intros H. injection H as <-.
  cbn [Result.win_rate Result.total_trades Result.winning_trades].
  repeat split.
  intros Hpos. apply Nat.ltb_lt in Hpos. rewrite Hpos. reflexivity.
Qed.

(** C8, on the code: a run with initial_capital = 0 goes through every day
    and the final closing without a trade, and then raises
    ZeroDivisionError in the computation of total_return. *)
Theorem zero_capital_run_raises (today : Z) (rnd : nat -> Q) (k : nat)
    (e : TradingEngine) :
  initial_capital (config e) == 0 ->
  exists e',
    run_to_close today rnd k e = Ok (e', k)
    /\ positions e' = []
    /\ trades e' = []
    /\ run_simulation today rnd k e = Raise ZeroDivisionError.
Proof.
  intros Hcap.
  destruct (idle_days today rnd
              (Z.to_nat (simulation_days (config (reset_state today e))))
              0%Z (reset_state today e) k Hcap eq_refl) as (d & Hd).
  assert (Hrun : run_to_close today rnd k e
                 = Ok (set_current_date d (reset_state today e), k)).
  { unfold run_to_close. rewrite Hd. reflexivity. }
  exists (set_current_date d (reset_state today e)).
  repeat split; auto.
  unfold run_simulation. rewrite Hrun. cbn [bind fst].
  unfold calculate_results. cbn [config set_current_date reset_state].
  apply Qeq_bool_iff in Hcap. rewrite Hcap. reflexivity.
Qed.

Lemma zero_capital_run_raises_witness :
  exists e',
    run_to_close 0 jump_at_second_draw 0 zero_capital_engine = Ok (e', 0%nat)
    /\ positions e' = []
    /\ trades e' = []
    /\ run_simulation 0 jump_at_second_draw 0 zero_capital_engine
       = Raise ZeroDivisionError.
Proof.
  apply (zero_capital_run_raises 0 jump_at_second_draw 0 zero_capital_engine).
  reflexivity.
Defined.

(** ** Position identifiers *)

(** C10: the identifier of a newly opened position is "P" followed by the
    number of open positions plus one, whatever the strategy and the size;
    and identifiers repeat within a run: in the two-day run of the sample
    engine, the day loop ends with two different open positions that both
    carry "P0002", and the run closes both into trades. *)
Theorem position_identifiers_repeat :
  (forall e s size,
     Position.id (new_position e s size)
     = ("P" ++ fmt_04d (List.length (positions e) + 1))%string)
  /\ (forall e s,
        positions (open_position e s)
        = positions e ++ [new_position e s (calculate_position_size e s)])
  /\ exists today rnd e e1 k1 p q e2 r,
       simulation_days_from today rnd (Z.to_nat (simulation_days (config e)))
         0%Z (reset_state today e, 0%nat) = Ok (e1, k1)
       /\ positions e1 = [p; q]
       /\ Position.eqb p q = false
       /\ Position.id p = "P0002"%string
       /\ Position.id q = "P0002"%string
       /\ run_simulation today rnd 0 e = Ok (e2, k1, r)
       /\ map Trade.symbol (skipn 1 (Result.trades r))
          = [Position.symbol p; Position.symbol q]
       /\ map Trade.entry_date (skipn 1 (Result.trades r))
          = [Position.entry_date p; Position.entry_date q].
Proof.
  split; [reflexivity|]. split; [reflexivity|].
  exists 0%Z, jump_at_second_draw, two_day_engine.
  do 6 eexists.
  split; [vm_compute; reflexivity|].
  split; [reflexivity|].
  split; [vm_compute; reflexivity|].
  split; [reflexivity|].
  split; [reflexivity|].
  split; [vm_compute; reflexivity|].
  split; reflexivity.
Qed.

(** ** Single options and the legs of a strategy *)

(** X1: whatever the stock price and the type, an option loses at most its
    premium; its intrinsic value is never negative and its time value
    never exceeds the premium. *)
Theorem option_loss_capped_by_premium (o : OptionContract.t) (stock_price : Q) :
  - OptionContract.premium o <= OptionContract.calculate_payoff o stock_price
  /\ 0 <= OptionContract.intrinsic_value o
  /\ OptionContract.time_value o <= OptionContract.premium o.
Proof.
  unfold OptionContract.calculate_payoff, OptionContract.time_value,
    OptionContract.intrinsic_value, Py.max.
  destruct (String.eqb (OptionContract.option_type o) "CALL");
    py_cases; repeat split; lra.
Qed.

(** X2: the payoff of a straddle or a strangle is the sum of the payoffs
    of its two options, a call and a put bought at their premiums. *)
Theorem straddle_strangle_are_their_legs (b : StrategyBase)
    (strike call_strike put_strike call_premium put_premium spot : Q) :
  calculate_payoff (Straddle b strike call_premium put_premium) spot
  = OptionContract.calculate_payoff (call_option strike call_premium) spot
    + OptionContract.calculate_payoff (put_option strike put_premium) spot
  /\ calculate_payoff
       (Strangle b call_strike put_strike call_premium put_premium) spot
     = OptionContract.calculate_payoff (call_option call_strike call_premium) spot
       + OptionContract.calculate_payoff (put_option put_strike put_premium) spot.
Proof.
  split; reflexivity.
Qed.

(** X3: with the bought strike on the near side of the sold one, the
    payoff of a call spread or a put spread is the payoff of the option
    bought minus the payoff of the option sold, up to rounding: when every
    operation rounds by at most [eta] the two differ by at most
    8 x [eta]. *)
Theorem spreads_near_their_legs (R : Q -> Q) (eta M B : Q) (b : StrategyBase)
    (buy_strike sell_strike buy_premium sell_premium spot : Q) :
  rounds_within R eta M -> 0 <= eta -> 16 * B + 16 * eta <= M ->
  parameters_within B (CallSpread b buy_strike sell_strike buy_premium sell_premium) ->
  - B <= spot -> spot <= B ->
  (buy_strike <= sell_strike ->
   let legs :=
     Fl.fsub R (Fl.option_payoff R (call_option buy_strike buy_premium) spot)
               (Fl.option_payoff R (call_option sell_strike sell_premium) spot) in
   let payoff :=
     Fl.calculate_payoff R
       (CallSpread b buy_strike sell_strike buy_premium sell_premium) spot in
   - (8 * eta) <= payoff - legs /\ payoff - legs <= 8 * eta)
  /\ (sell_strike <= buy_strike ->
      let legs :=
        Fl.fsub R (Fl.option_payoff R (put_option buy_strike buy_premium) spot)
                  (Fl.option_payoff R (put_option sell_strike sell_premium) spot) in
      let payoff :=
        Fl.calculate_payoff R
          (PutSpread b buy_strike sell_strike buy_premium sell_premium) spot in
      - (8 * eta) <= payoff - legs /\ payoff - legs <= 8 * eta).
Proof.
  intros Hround Heta HM Hb Hs1 Hs2. cbn in Hb. split_hyps.
  split; intros Hord legs payoff; subst legs payoff;
    unfold Fl.option_payoff; cbn; fl_solve.
Qed.

Lemma spreads_near_their_legs_witness :
  (- (8 * (1 # 2048))
   <= Fl.calculate_payoff round_to_grid cent_call_spread (15537 # 100)
      - Fl.fsub round_to_grid
          (Fl.option_payoff round_to_grid (call_option 150 (503 # 100)) (15537 # 100))
          (Fl.option_payoff round_to_grid (call_option 160 (101 # 100)) (15537 # 100))
   /\ Fl.calculate_payoff round_to_grid cent_call_spread (15537 # 100)
      - Fl.fsub round_to_grid
          (Fl.option_payoff round_to_grid (call_option 150 (503 # 100)) (15537 # 100))
          (Fl.option_payoff round_to_grid (call_option 160 (101 # 100)) (15537 # 100))
      <= 8 * (1 # 2048))
  /\ (- (8 * (1 # 2048))
      <= Fl.calculate_payoff round_to_grid cent_put_spread (14421 # 100)
         - Fl.fsub round_to_grid
             (Fl.option_payoff round_to_grid (put_option 150 (503 # 100)) (14421 # 100))
             (Fl.option_payoff round_to_grid (put_option 140 (101 # 100)) (14421 # 100))
      /\ Fl.calculate_payoff round_to_grid cent_put_spread (14421 # 100)
         - Fl.fsub round_to_grid
             (Fl.option_payoff round_to_grid (put_option 150 (503 # 100)) (14421 # 100))
             (Fl.option_payoff round_to_grid (put_option 140 (101 # 100)) (14421 # 100))
         <= 8 * (1 # 2048)).
Proof.
  split.
  - apply (proj1 (spreads_near_their_legs round_to_grid (1 # 2048) 10000 200
                    aapl_base 150 160 (503 # 100) (101 # 100) (15537 # 100)
                    (round_to_grid_within 10000) ltac:(discriminate)
                    ltac:(discriminate)
                    ltac:(cbn; repeat split; discriminate)
                    ltac:(discriminate) ltac:(discriminate))).
    discriminate.
  - apply (proj2 (spreads_near_their_legs round_to_grid (1 # 2048) 10000 200
                    aapl_base 150 140 (503 # 100) (101 # 100) (14421 # 100)
                    (round_to_grid_within 10000) ltac:(discriminate)
                    ltac:(discriminate)
                    ltac:(cbn; repeat split; discriminate)
                    ltac:(discriminate) ltac:(discriminate))).
    discriminate.
Defined.

(** X4: a butterfly with strikes in order and wings of the same width pays
    what one call bought at the low strike, two calls sold at the middle
    strike and one call bought at the high strike pay together, up to
    rounding: when every operation rounds by at most [eta] the two differ
    by at most 17 x [eta]. *)
Theorem butterfly_near_its_legs (R : Q -> Q) (eta M B : Q) (b : StrategyBase)
    (low middle high low_premium middle_premium high_premium spot : Q) :
  rounds_within R eta M -> 0 <= eta -> 16 * B + 16 * eta <= M ->
  parameters_within B
    (Butterfly b low middle high low_premium middle_premium high_premium) ->
  - B <= spot -> spot <= B ->
  low <= middle -> middle <= high -> high - middle == middle - low ->
  let legs :=
    Fl.fadd R
      (Fl.fsub R (Fl.option_payoff R (call_option low low_premium) spot)
         (Fl.fmul R 2
            (Fl.option_payoff R (call_option middle middle_premium) spot)))
      (Fl.option_payoff R (call_option high high_premium) spot) in
  let payoff :=
    Fl.calculate_payoff R
      (Butterfly b low middle high low_premium middle_premium high_premium)
      spot in
  - (17 * eta) <= payoff - legs /\ payoff - legs <= 17 * eta.
Proof.
  intros Hround Heta HM Hb Hs1 Hs2 Hlm Hmh Hsym legs payoff. subst legs payoff.
  cbn in Hb. split_hyps. unfold Fl.option_payoff; cbn. fl_solve.
Qed.

Lemma butterfly_near_its_legs_witness :
  - (17 * (1 # 2048))
  <= Fl.calculate_payoff round_to_grid cent_butterfly (1533 # 10)
     - Fl.fadd round_to_grid
         (Fl.fsub round_to_grid
            (Fl.option_payoff round_to_grid (call_option 140 (123 # 10)) (1533 # 10))
            (Fl.fmul round_to_grid 2
               (Fl.option_payoff round_to_grid (call_option 150 (51 # 10)) (1533 # 10))))
         (Fl.option_payoff round_to_grid (call_option 160 (12 # 10)) (1533 # 10))
  /\ Fl.calculate_payoff round_to_grid cent_butterfly (1533 # 10)
     - Fl.fadd round_to_grid
         (Fl.fsub round_to_grid
            (Fl.option_payoff round_to_grid (call_option 140 (123 # 10)) (1533 # 10))
            (Fl.fmul round_to_grid 2
               (Fl.option_payoff round_to_grid (call_option 150 (51 # 10)) (1533 # 10))))
         (Fl.option_payoff round_to_grid (call_option 160 (12 # 10)) (1533 # 10))
     <= 17 * (1 # 2048).
Proof.
  apply (butterfly_near_its_legs round_to_grid (1 # 2048) 10000 200 aapl_base
           140 150 160 (123 # 10) (51 # 10) (12 # 10) (1533 # 10)).
  - apply round_to_grid_within.
  - discriminate.
  - discriminate.
  - cbn. repeat split; discriminate.
  - discriminate.
  - discriminate.
  - discriminate.
  - discriminate.
  - reflexivity.
Defined.

(** X5: an iron condor with legs in order pays its net credit, minus the
    call sold and the put sold, plus the call and the put bought further
    out (each leg taken without premium), up to rounding: when every
    operation rounds by at most [eta] the two differ by at most
    14 x [eta]. *)
Theorem iron_condor_near_its_legs (R : Q -> Q) (eta M B : Q) (b : StrategyBase)
    (short_call long_call short_put long_put net_credit spot : Q) :
  rounds_within R eta M -> 0 <= eta -> 16 * B + 16 * eta <= M ->
  parameters_within B
    (IronCondor b short_call long_call short_put long_put net_credit) ->
  - B <= spot -> spot <= B ->
  long_put <= short_put -> short_put <= short_call -> short_call <= long_call ->
  let legs :=
    Fl.fadd R
      (Fl.fsub R
         (Fl.fadd R
            (Fl.fsub R net_credit
               (Fl.option_payoff R (call_option short_call 0) spot))
            (Fl.option_payoff R (call_option long_call 0) spot))
         (Fl.option_payoff R (put_option short_put 0) spot))
      (Fl.option_payoff R (put_option long_put 0) spot) in
  let payoff :=
    Fl.calculate_payoff R
      (IronCondor b short_call long_call short_put long_put net_credit) spot in
  - (14 * eta) <= payoff - legs /\ payoff - legs <= 14 * eta.
Proof.
  intros Hround Heta HM Hb Hs1 Hs2 H1 H2 H3 legs payoff. subst legs payoff.
  cbn in Hb. split_hyps. unfold Fl.option_payoff; cbn. fl_solve.
Qed.

Lemma iron_condor_near_its_legs_witness :
  - (14 * (1 # 2048))
  <= Fl.calculate_payoff round_to_grid cent_iron_condor (15777 # 100)
     - Fl.fadd round_to_grid
         (Fl.fsub round_to_grid
            (Fl.fadd round_to_grid
               (Fl.fsub round_to_grid (255 # 100)
                  (Fl.option_payoff round_to_grid (call_option 155 0) (15777 # 100)))
               (Fl.option_payoff round_to_grid (call_option 160 0) (15777 # 100)))
            (Fl.option_payoff round_to_grid (put_option 145 0) (15777 # 100)))
         (Fl.option_payoff round_to_grid (put_option 140 0) (15777 # 100))
  /\ Fl.calculate_payoff round_to_grid cent_iron_condor (15777 # 100)
     - Fl.fadd round_to_grid
         (Fl.fsub round_to_grid
            (Fl.fadd round_to_grid
               (Fl.fsub round_to_grid (255 # 100)
                  (Fl.option_payoff round_to_grid (call_option 155 0) (15777 # 100)))
               (Fl.option_payoff round_to_grid (call_option 160 0) (15777 # 100)))
            (Fl.option_payoff round_to_grid (put_option 145 0) (15777 # 100)))
         (Fl.option_payoff round_to_grid (put_option 140 0) (15777 # 100))
     <= 14 * (1 # 2048).
Proof.
  apply (iron_condor_near_its_legs round_to_grid (1 # 2048) 10000 200 aapl_base
           155 160 145 140 (255 # 100) (15777 # 100)).
  - apply round_to_grid_within.
  - discriminate.
  - discriminate.
  - cbn. repeat split; discriminate.
  - discriminate.
  - discriminate.
  - discriminate.
  - discriminate.
  - discriminate.
Defined.

(** ** Shape of the payoff *)

(** Between two spot prices the rounded payoff moves by no more than the
    prices differ, and 12 roundings. *)
Lemma payoff_slope_rounded (R : Q -> Q) (eta M B : Q)
    (s : OptionsStrategy) (a b : Q) :
  rounds_within R eta M -> 0 <= eta -> 16 * B + 16 * eta <= M ->
  legs_balanced s -> parameters_within B s ->
  - B <= a -> a <= b -> b <= B ->
  - ((b - a) + 12 * eta)
  <= Fl.calculate_payoff R s b - Fl.calculate_payoff R s a
  /\ Fl.calculate_payoff R s b - Fl.calculate_payoff R s a
     <= (b - a) + 12 * eta.
Proof.
  intros Hround Heta HM Hl Hb Ha Hab HbB.
  destruct s; cbn in Hb, Hl; split_hyps; fl_solve.
Qed.

(** X6: between two spot prices the payoff of a strategy with balanced
    legs moves by no more than the prices differ, up to rounding: the
    payoff has no jump and no slope steeper than one. When every operation
    rounds by at most [eta], the payoffs at a <= b differ by at most
    (b - a) + 12 x [eta]. *)
Theorem payoff_moves_nearly_like_spot (R : Q -> Q) (eta M B : Q)
    (s : OptionsStrategy) (a b : Q) :
  rounds_within R eta M -> 0 <= eta -> 16 * B + 16 * eta <= M ->
  legs_balanced s -> parameters_within B s ->
  - B <= a -> a <= b -> b <= B ->
  - ((b - a) + 12 * eta)
  <= Fl.calculate_payoff R s b - Fl.calculate_payoff R s a
  /\ Fl.calculate_payoff R s b - Fl.calculate_payoff R s a
     <= (b - a) + 12 * eta.
Proof.
  intros. now apply (payoff_slope_rounded R eta M B).
Qed.

Lemma payoff_moves_nearly_like_spot_witness :
  - (((1583 # 10) - (1501 # 10)) + 12 * (1 # 2048))
  <= Fl.calculate_payoff round_to_grid cent_iron_condor (1583 # 10)
     - Fl.calculate_payoff round_to_grid cent_iron_condor (1501 # 10)
  /\ Fl.calculate_payoff round_to_grid cent_iron_condor (1583 # 10)
     - Fl.calculate_payoff round_to_grid cent_iron_condor (1501 # 10)
     <= ((1583 # 10) - (1501 # 10)) + 12 * (1 # 2048).
Proof.
  apply (payoff_moves_nearly_like_spot round_to_grid (1 # 2048) 10000 200
           cent_iron_condor (1501 # 10) (1583 # 10)).
  - apply round_to_grid_within.
  - discriminate.
  - discriminate.
  - cbn. repeat split; discriminate.
  - cbn. repeat split; discriminate.
  - discriminate.
  - discriminate.
  - discriminate.
Defined.

(** X7: the declared extremes are reached. For legs in order (and a
    strangle whose put is struck no higher than its call) some spot price
    pays exactly minus [get_max_loss], and when [get_max_profit] is finite
    some spot price pays exactly that. *)
Theorem declared_extremes_are_reached (s : OptionsStrategy) :
  legs_apart s ->
  (exists spot, calculate_payoff s spot == - get_max_loss s)
  /\ (forall m, get_max_profit s = Fin m ->
                exists spot, calculate_payoff s spot == m).
Proof.
  intros Hlegs.
  destruct s as [b sc lc sp lp nc | b k cp pp | b cs ps cp pp
                 | b bs ss bp sp | b bs ss bp sp | b l m h lp mp hp];
    cbn in Hlegs; split; try (intros ? [=]; subst).
  - destruct (Qlt_le_dec (lc - sc) (sp - lp)) as [Hw | Hw];
      [exists lp | exists lc]; cbn; unfold Py.max, Py.min;
      py_cases; lra.
  - exists sc. cbn. unfold Py.min. py_cases; lra.
  - exists k. cbn. unfold Py.max, total_cost. py_cases; lra.
  - exists cs. cbn. unfold Py.max, total_cost. py_cases; lra.
  - exists bs. cbn. py_cases; lra.
  - exists ss. cbn. py_cases; lra.
  - exists bs. cbn. py_cases; lra.
  - exists ss. cbn. py_cases; lra.
  - exists l. cbn. py_cases; lra.
  - exists m. cbn. py_cases; lra.
Qed.

Lemma declared_extremes_are_reached_witness :
  (exists spot, calculate_payoff sample_iron_condor spot
                == - get_max_loss sample_iron_condor)
  /\ (forall m, get_max_profit sample_iron_condor = Fin m ->
                exists spot, calculate_payoff sample_iron_condor spot == m).
Proof.
  apply (declared_extremes_are_reached sample_iron_condor).
  cbn. repeat split; discriminate.
Defined.

(** ** Sensitivities *)

(** X8: for a strategy with balanced legs the estimated delta lies
    between -1 and 1 up to rounding, at every price: when every operation
    rounds by at most [eta] <= 1/200, the step 0.01 included, the delta
    lies between -(1 + 3000 x [eta]) and 1 + 3000 x [eta]. *)
Theorem delta_is_nearly_within_one (R : Q -> Q) (eta M B : Q)
    (s : OptionsStrategy) (price : Q) :
  rounds_within R eta M -> 0 <= eta -> eta <= 1 # 200 ->
  16 * B + 16 * eta <= M -> 1 <= B ->
  legs_balanced s -> parameters_within B s ->
  - B <= price -> price + 1 <= B ->
  - (1 + 3000 * eta) <= Fl._estimate_delta R s price
  /\ Fl._estimate_delta R s price <= 1 + 3000 * eta.
Proof.
  intros Hround Heta Hsmall HM HB Hl Hb Hp1 Hp2.
  unfold Fl._estimate_delta, Fl.fdiv, Fl.fadd, Fl.fsub.
  destruct (Hround (1 # 100)) as [Hc1 Hc2]; [split; lra|].
  set (price_change := R (1 # 100)) in *. clearbody price_change.
  destruct (Hround (price + price_change)) as [Hn1 Hn2]; [split; lra|].
  set (new_price := R (price + price_change)) in *. clearbody new_price.
  destruct (payoff_slope_rounded R eta M B s price new_price)
    as [Hs1 Hs2]; try assumption; try lra.
  set (new_payoff := Fl.calculate_payoff R s new_price) in *.
  set (current_payoff := Fl.calculate_payoff R s price) in *.
  clearbody new_payoff current_payoff.
  destruct (Hround (new_payoff - current_payoff)) as [Hd1 Hd2]; [split; lra|].
  set (d := R (new_payoff - current_payoff)) in *. clearbody d.
  assert (Hpos : 0 < price_change) by lra.
  assert (Hslack : 14 * eta <= 2800 * eta * price_change).
  { assert (0 <= 2800 * eta * (price_change - (1 # 200)))
      by (apply Qmult_le_0_compat; lra).
    lra. }
  assert (Hq1 : - (1 + 2800 * eta) <= d / price_change).
  { apply Qle_shift_div_l; [exact Hpos|]. lra. }
  assert (Hq2 : d / price_change <= 1 + 2800 * eta).
  { apply Qle_shift_div_r; [exact Hpos|]. lra. }
  destruct (Hround (d / price_change)) as [Hr1 Hr2]; [split; lra|].
  split; lra.
Qed.

Lemma delta_is_nearly_within_one_witness :
  - (1 + 3000 * (1 # 2048))
  <= Fl._estimate_delta round_to_grid cent_iron_condor 157
  /\ Fl._estimate_delta round_to_grid cent_iron_condor 157
     <= 1 + 3000 * (1 # 2048).
Proof.
  apply (delta_is_nearly_within_one round_to_grid (1 # 2048) 10000 200
           cent_iron_condor 157).
  - apply round_to_grid_within.
  - discriminate.
  - discriminate.
  - discriminate.
  - discriminate.
  - cbn. repeat split; discriminate.
  - cbn. repeat split; discriminate.
  - discriminate.
  - discriminate.
Defined.

(** ** Probability, expected value and recommendation *)

Lemma probability_cases (s : OptionsStrategy) :
  _calculate_probability_of_profit s = 3 # 10
  \/ _calculate_probability_of_profit s = 4 # 10
  \/ _calculate_probability_of_profit s = 6 # 10
  \/ _calculate_probability_of_profit s = 7 # 10.
Proof.
  unfold _calculate_probability_of_profit.
  destruct s; cbn [get_break_even_points];
    match goal with
    | |- context [if ?c then _ else _] => destruct c
    end; auto.
Qed.

(** X9: the probability of profit is one of 0.3, 0.4, 0.6 and 0.7, and
    the default of 0.5 is never returned, since every strategy class
    declares one or two break-even points: a call or put spread gets 0.4
    or 0.6, every other class 0.3 or 0.7. *)
Theorem probability_of_profit_values (s : OptionsStrategy) :
  _calculate_probability_of_profit s <> 5 # 10
  /\ (List.length (get_break_even_points s) = 1%nat
      \/ List.length (get_break_even_points s) = 2%nat)
  /\ (List.length (get_break_even_points s) = 1%nat ->
      _calculate_probability_of_profit s = 4 # 10
      \/ _calculate_probability_of_profit s = 6 # 10)
  /\ (List.length (get_break_even_points s) = 2%nat ->
      _calculate_probability_of_profit s = 3 # 10
      \/ _calculate_probability_of_profit s = 7 # 10).
Proof.
  split; [|split; [|split]].
  - destruct (probability_cases s) as [Hp | [Hp | [Hp | Hp]]];
      rewrite Hp; discriminate.
  - destruct s; cbn; auto.
  - unfold _calculate_probability_of_profit.
    destruct s; cbn; intros H; try discriminate H;
      match goal with
      | |- context [if ?c then _ else _] => destruct c
      end; auto.
  - unfold _calculate_probability_of_profit.
    destruct s; cbn; intros H; try discriminate H;
      match goal with
      | |- context [if ?c then _ else _] => destruct c
      end; auto.
Qed.

Lemma expected_value_nonneg (s : OptionsStrategy) :
  0 <= get_max_loss s -> profit_nonneg s ->
  0 <= _calculate_expected_value s.
Proof.
  intros Hloss Hprofit.
  unfold _calculate_expected_value, profit_nonneg in *.
  pose proof (Qabs_nonneg (get_max_loss s)) as Habs.
  destruct (get_max_profit s) as [m|];
    destruct (probability_cases s) as [Hp | [Hp | [Hp | Hp]]];
    rewrite Hp; lra.
Qed.

(** X10: when the declared maximum loss and maximum profit are not
    negative, the expected value is not negative either, and the
    recommendation is never "AVOID". *)
Theorem never_avoid_with_nonneg_extremes (s : OptionsStrategy) :
  0 <= get_max_loss s -> profit_nonneg s ->
  0 <= _calculate_expected_value s
  /\ _get_recommendation s <> "AVOID"%string.
Proof.
  intros Hloss Hprofit.
  assert (Hev : 0 <= _calculate_expected_value s)
    by now apply expected_value_nonneg.
  split; [exact Hev|].
  unfold _get_recommendation.
  destruct (Py.ltb 0 (_calculate_expected_value s)
            && xgtb (_calculate_risk_reward_ratio s) (15 # 10)
            && Py.ltb (6 # 10) (_calculate_probability_of_profit s));
    [discriminate|].
  destruct (Py.ltb 0 (_calculate_expected_value s)
            && xgtb (_calculate_risk_reward_ratio s) 1
            && Py.ltb (5 # 10) (_calculate_probability_of_profit s));
    [discriminate|].
  destruct (Py.ltb 0 (_calculate_expected_value s)); [discriminate|].
  destruct (Py.ltb (_calculate_expected_value s) _) eqn:E; [|discriminate].
  apply PyFacts.ltb_lt in E.
  pose proof (Qabs_nonneg (get_max_loss s)). lra.
Qed.

Lemma never_avoid_with_nonneg_extremes_witness :
  0 <= _calculate_expected_value sample_iron_condor
  /\ _get_recommendation sample_iron_condor <> "AVOID"%string.
Proof.
  apply (never_avoid_with_nonneg_extremes sample_iron_condor);
    cbn; discriminate.
Defined.

(** X11: a straddle or a strangle that costs something is always rated
    "WEAK BUY": its expected value is positive and its risk/reward ratio
    is 0. *)
Theorem long_volatility_is_always_weak_buy (s : OptionsStrategy) :
  has_total_cost s = true -> 0 < get_max_loss s ->
  _get_recommendation s = "WEAK BUY"%string.
Proof.
  intros Htc Hcost.
  assert (Hprofit : get_max_profit s = PInf)
    by (destruct s; try discriminate Htc; reflexivity).
  assert (Hrr : _calculate_risk_reward_ratio s = Fin 0).
  { unfold _calculate_risk_reward_ratio. rewrite Hprofit.
    destruct (Qeq_bool (Qabs (get_max_loss s)) 0) eqn:Hz; [|reflexivity].
    apply Qeq_bool_iff in Hz. rewrite Qabs_pos in Hz; lra. }
  assert (Hev : 0 < _calculate_expected_value s).
  { unfold _calculate_expected_value. rewrite Hprofit.
    rewrite Qabs_pos by lra.
    destruct (probability_cases s) as [Hp | [Hp | [Hp | Hp]]];
      rewrite Hp; lra. }
  unfold _get_recommendation. rewrite Hrr.
  apply PyFacts.ltb_lt in Hev. rewrite Hev. cbn [xgtb andb].
  replace (Py.ltb (15 # 10) 0) with false by reflexivity.
  replace (Py.ltb 1 0) with false by reflexivity.
  reflexivity.
Qed.

Lemma long_volatility_is_always_weak_buy_witness :
  _get_recommendation sample_straddle = "WEAK BUY"%string.
Proof.
  apply (long_volatility_is_always_weak_buy sample_straddle);
    reflexivity.
Defined.

(** X12: "STRONG BUY" is only given to a strategy with two break-even
    points whose reference price lies outside the interval between them,
    and whose expected value is positive. *)
Theorem strong_buy_only_outside_break_evens (s : OptionsStrategy) :
  _get_recommendation s = "STRONG BUY"%string ->
  0 < _calculate_expected_value s
  /\ exists lower_be upper_be,
       get_break_even_points s = [lower_be; upper_be]
       /\ (current_price (base s) < lower_be
           \/ upper_be < current_price (base s)).
Proof.
  unfold _get_recommendation.
  destruct (Py.ltb 0 (_calculate_expected_value s)
            && xgtb (_calculate_risk_reward_ratio s) (15 # 10)
            && Py.ltb (6 # 10) (_calculate_probability_of_profit s)) eqn:E.
  - intros _. apply andb_true_iff in E as [E Hp].
    apply andb_true_iff in E as [Hev _].
    apply PyFacts.ltb_lt in Hev, Hp. split; [exact Hev|].
    unfold _calculate_probability_of_profit in Hp.
    destruct (get_break_even_points s) as [|lo [|up [|x l]]];
      try (vm_compute in Hp; discriminate Hp).
    + destruct (Py.ltb lo _); vm_compute in Hp; discriminate Hp.
    + exists lo, up. split; [reflexivity|].
      destruct (Py.leb lo (current_price (base s))) eqn:Hlo;
        [destruct (Py.leb (current_price (base s)) up) eqn:Hup|];
        cbn [andb] in Hp; try (vm_compute in Hp; discriminate Hp).
      * right. now apply PyFacts.leb_gt.
      * left. now apply PyFacts.leb_gt.
  - intros H.
    destruct (Py.ltb 0 (_calculate_expected_value s)
              && xgtb (_calculate_risk_reward_ratio s) 1
              && Py.ltb (5 # 10) (_calculate_probability_of_profit s));
      [discriminate H|].
    destruct (Py.ltb 0 (_calculate_expected_value s)); [discriminate H|].
    destruct (Py.ltb (_calculate_expected_value s) _); discriminate H.
Qed.

Lemma strong_buy_only_outside_break_evens_witness :
  0 < _calculate_expected_value (Butterfly (mkBase "SPY" 80 30 0) 90 100 110 12 7 3)
  /\ exists lower_be upper_be,
       get_break_even_points (Butterfly (mkBase "SPY" 80 30 0) 90 100 110 12 7 3)
       = [lower_be; upper_be]
       /\ (80 < lower_be \/ upper_be < 80).
Proof.
  apply (strong_buy_only_outside_break_evens
           (Butterfly (mkBase "SPY" 80 30 0) 90 100 110 12 7 3)).
  vm_compute. reflexivity.
Defined.

(** ** Ranking of strategies *)

Lemma insert_descending_perm {A : Type} (key : A -> Q) (x : A) (l : list A) :
  Permutation (insert_descending key x l) (x :: l).
Proof.
  induction l as [|y r IH]; cbn; [reflexivity|].
  destruct (Py.ltb (key x) (key y)); [|reflexivity].
  rewrite IH. apply perm_swap.
Qed.

Lemma sorted_descending_perm {A : Type} (key : A -> Q) (l : list A) :
  Permutation (sorted_descending key l) l.
Proof.
  induction l as [|x l IH]; cbn; [reflexivity|].
  rewrite insert_descending_perm. now constructor.
Qed.

Lemma insert_descending_sorted {A : Type} (key : A -> Q) (x : A) (l : list A) :
  Sorted (descending key) l ->
  Sorted (descending key) (insert_descending key x l).
Proof.
  induction l as [|y r IH]; intros Hs; cbn.
  - repeat constructor.
  - inversion Hs as [|? ? Hr Hhd]; subst.
    destruct (Py.ltb (key x) (key y)) eqn:E.
    + apply PyFacts.ltb_lt in E. constructor; [now apply IH|].
      destruct r as [|z r']; cbn.
      * constructor. unfold descending. lra.
      * destruct (Py.ltb (key x) (key z)).
        -- inversion Hhd; subst. now constructor.
        -- constructor. unfold descending. lra.
    + apply PyFacts.ltb_ge in E. constructor; [exact Hs|].
      constructor. exact E.
Qed.

Lemma sorted_descending_sorted {A : Type} (key : A -> Q) (l : list A) :
  Sorted (descending key) (sorted_descending key l).
Proof.
  induction l as [|x l IH]; cbn; [constructor|].
  now apply insert_descending_sorted.
Qed.

Lemma comparison_items_keys (ss : list OptionsStrategy) (i : nat) :
  map fst (comparison_items i ss)
  = map strategy_key (seq (i + 1) (List.length ss)).
Proof.
  revert i. induction ss as [|s ss IH]; intros i; cbn; [reflexivity|].
  f_equal. rewrite IH. reflexivity.
Qed.

(** The decimal numeral of a natural number reads back as the number. *)
Lemma decimal_reads_back (n : nat) :
  option_map Nat.of_uint
    (NilEmpty.uint_of_string (NilEmpty.string_of_uint (Nat.to_uint n)))
  = Some n.
Proof.
  rewrite NilEmpty.usu. cbn. f_equal. apply DecimalNat.Unsigned.of_to.
Qed.

Lemma strategy_key_inj (n m : nat) : strategy_key n = strategy_key m -> n = m.
Proof.
  unfold strategy_key. cbn. intros H. injection H as H.
  pose proof (decimal_reads_back n) as Hn.
  rewrite H, decimal_reads_back in Hn. now injection Hn.
Qed.

(** X13: [compare_strategies] gives the strategies distinct keys
    "Strategy_1" ... "Strategy_n", and its ranking lists exactly those
    keys, each once, in an order in which the expected value never
    increases. *)
Theorem ranking_is_sorted_by_expected_value (ss : list OptionsStrategy) :
  let key := fun item : string * Comparison.t =>
               Comparison.expected_value (snd item) in
  let ranked := sorted_descending key (comparison_items 0 ss) in
  NoDup (map fst (comparison_items 0 ss))
  /\ ranking ss = map fst ranked
  /\ Permutation ranked (comparison_items 0 ss)
  /\ Sorted (descending key) ranked
  /\ Permutation (ranking ss) (map strategy_key (seq 1 (List.length ss))).
Proof.
  intros key ranked. split; [|split; [|split; [|split]]].
  - rewrite comparison_items_keys.
    apply Finite.Injective_map_NoDup; [|apply seq_NoDup].
    intros n m. apply strategy_key_inj.
  - reflexivity.
  - apply sorted_descending_perm.
  - apply sorted_descending_sorted.
  - unfold ranking. change 1%nat with (0 + 1)%nat.
    rewrite <- (comparison_items_keys ss 0).
    apply Permutation_map, sorted_descending_perm.
Qed.

(** ** Market conditions *)

Lemma inject_of_nat_succ (n : nat) :
  inject_Z (Z.of_nat (S n)) == inject_Z (Z.of_nat n) + 1.
Proof.
  rewrite Nat2Z.inj_succ. unfold Z.succ. rewrite inject_Z_plus. reflexivity.
Qed.

Lemma py_sum_from {A : Type} (f : A -> Q) (l : list A) (a : Q) :
  fold_left (fun acc x => acc + f x) l a == a + py_sum f l.
Proof.
  unfold py_sum. revert a. induction l as [|x l IH]; intros a; cbn.
  - lra.
  - rewrite IH, (IH (0 + f x)). lra.
Qed.

Lemma py_sum_cons {A : Type} (f : A -> Q) (x : A) (l : list A) :
  py_sum f (x :: l) == f x + py_sum f l.
Proof.
  unfold py_sum at 1. cbn. rewrite py_sum_from. lra.
Qed.

Lemma py_sum_app {A : Type} (f : A -> Q) (l1 l2 : list A) :
  py_sum f (l1 ++ l2) == py_sum f l1 + py_sum f l2.
Proof.
  induction l1 as [|x l1 IH]; cbn [app].
  - unfold py_sum at 2. cbn. lra.
  - rewrite !py_sum_cons, IH. lra.
Qed.

Lemma py_sum_nonneg {A : Type} (f : A -> Q) (l : list A) :
  (forall x, In x l -> 0 <= f x) -> 0 <= py_sum f l.
Proof.
  induction l as [|x l IH]; intros Hb.
  - unfold py_sum. cbn. lra.
  - rewrite py_sum_cons.
    pose proof (Hb x (or_introl eq_refl)).
    pose proof (IH (fun y Hy => Hb y (or_intror Hy))). lra.
Qed.

Lemma analyze_market_conditions_nonempty (ss : list OptionsStrategy) :
  ss <> [] ->
  analyze_market_conditions ss
  = Some (Market.mk
            (py_sum _calculate_expected_value ss)
            (py_sum _calculate_probability_of_profit ss
             / inject_Z (Z.of_nat (List.length ss)))
            (if Py.ltb 0 (py_sum _calculate_expected_value ss)
                && Py.ltb (6 # 10)
                     (py_sum _calculate_probability_of_profit ss
                      / inject_Z (Z.of_nat (List.length ss)))
             then "BULLISH"%string
             else if Py.ltb (py_sum _calculate_expected_value ss) 0
                     && Py.ltb (py_sum _calculate_probability_of_profit ss
                                / inject_Z (Z.of_nat (List.length ss)))
                               (4 # 10)
             then "BEARISH"%string
             else "NEUTRAL"%string)
            (List.length ss)).
Proof.
  destruct ss; [contradiction | reflexivity].
Qed.

(** X14: [analyze_market_conditions] answers the empty dictionary exactly
    for an empty list; otherwise it counts the strategies, and when no
    strategy has a negative maximum loss or maximum profit the total
    expected value is not negative and the sentiment is never "BEARISH". *)
Theorem market_conditions_summary (ss : list OptionsStrategy) :
  (analyze_market_conditions ss = None <-> ss = [])
  /\ forall r, analyze_market_conditions ss = Some r ->
       Market.strategy_count r = List.length ss
       /\ ((forall s, In s ss -> 0 <= get_max_loss s /\ profit_nonneg s) ->
           0 <= Market.total_expected_value r
           /\ Market.market_sentiment r <> "BEARISH"%string).
Proof.
  split.
  - destruct ss; cbn; split; intros H; try reflexivity; discriminate.
  - intros r Hr.
    assert (Hne : ss <> []) by (intros ->; discriminate Hr).
    rewrite (analyze_market_conditions_nonempty ss Hne) in Hr.
    injection Hr as <-.
    cbn [Market.strategy_count Market.total_expected_value
         Market.market_sentiment].
    split; [reflexivity|].
    intros Hnonneg.
    assert (Hev : 0 <= py_sum _calculate_expected_value ss).
    { apply py_sum_nonneg. intros s Hs. destruct (Hnonneg s Hs).
      now apply expected_value_nonneg. }
    split; [exact Hev|].
    destruct (Py.ltb 0 _ && Py.ltb (6 # 10) _); [discriminate|].
    destruct (Py.ltb (py_sum _calculate_expected_value ss) 0) eqn:E;
      [|discriminate].
    apply PyFacts.ltb_lt in E. lra.
Qed.

Lemma market_conditions_summary_witness :
  exists r,
    analyze_market_conditions
      [sample_iron_condor; sample_straddle; cent_butterfly] = Some r
    /\ Market.strategy_count r = 3%nat
    /\ 0 <= Market.total_expected_value r
    /\ Market.market_sentiment r <> "BEARISH"%string.
Proof.
  eexists. split; [reflexivity|].
  destruct (proj2 (market_conditions_summary
                     [sample_iron_condor; sample_straddle; cent_butterfly])
              _ eq_refl) as [Hcount Hrest].
  split; [exact Hcount|]. apply Hrest.
  intros s [<- | [<- | [<- | []]]]; cbn; split;
    solve [discriminate | exact I].
Defined.

(** ** Marking positions to market *)

Lemma payoff_set_current_price (q : Q) (s : OptionsStrategy) (x : Q) :
  calculate_payoff (set_current_price q s) x = calculate_payoff s x.
Proof. destruct s; reflexivity. Qed.

Lemma without_price_set (q : Q) (s : OptionsStrategy) :
  without_price (set_current_price q s) = without_price s.
Proof. destruct s; reflexivity. Qed.

Lemma has_symbol_set (q : Q) (sym : string) (s : OptionsStrategy) :
  has_symbol sym (set_current_price q s) = has_symbol sym s.
Proof. destruct s; reflexivity. Qed.

Lemma update_first_without_price (f : OptionsStrategy -> bool) (q : Q)
    (l : list OptionsStrategy) :
  map without_price (update_first f (set_current_price q) l)
  = map without_price l.
Proof.
  induction l as [|x l IH]; cbn; [reflexivity|].
  destruct (f x); cbn; [now rewrite without_price_set | now rewrite IH].
Qed.

(** Strategies that differ only in their reference prices are found
    alike. *)
Lemma find_strategy_blind (sym : string) :
  forall l l' : list OptionsStrategy,
    map without_price l = map without_price l' ->
    match find_strategy l sym, find_strategy l' sym with
    | Some a, Some b => without_price a = without_price b
    | None, None => True
    | _, _ => False
    end.
Proof.
  unfold find_strategy.
  induction l as [|x l IH]; intros [|y l'] H; try discriminate H; cbn;
    [exact I|].
  injection H as Hxy Hl.
  assert (Hs : has_symbol sym x = has_symbol sym y).
  { rewrite <- (has_symbol_set 0 sym x), <- (has_symbol_set 0 sym y).
    unfold without_price in Hxy. now rewrite Hxy. }
  rewrite Hs. destruct (has_symbol sym y); [exact Hxy | now apply IH].
Qed.

Lemma payoff_blind (a b : OptionsStrategy) (x : Q) :
  without_price a = without_price b ->
  calculate_payoff a x = calculate_payoff b x.
Proof.
  intros H. rewrite <- (payoff_set_current_price 0 a),
    <- (payoff_set_current_price 0 b).
  unfold without_price in H. now rewrite H.
Qed.

Lemma py_max_ge_r (a b : Q) : b <= Py.max a b.
Proof. unfold Py.max. py_cases; lra. Qed.

(** What the loop of [update_positions] does to the positions and the
    strategies it is given. *)
Lemma update_positions_loop_spec (rnd : nat -> Q) :
  forall (ps : list Position.t) (strats : list OptionsStrategy) (k : nat),
    let '(ps', strats', k') := update_positions_loop rnd ps strats k in
    map Position.id ps' = map Position.id ps
    /\ map Position.symbol ps' = map Position.symbol ps
    /\ map Position.entry_date ps' = map Position.entry_date ps
    /\ map Position.quantity ps' = map Position.quantity ps
    /\ map without_price strats' = map without_price strats
    /\ forall p' strategy,
         In p' ps' ->
         find_strategy strats (Position.symbol p') = Some strategy ->
         1 # 100 <= Position.current_price p'
         /\ Position.unrealized_pnl p'
            = calculate_payoff strategy (Position.current_price p')
              * inject_Z (Position.quantity p').
Proof.
  induction ps as [|p ps IH]; intros strats k; cbn [update_positions_loop].
  - do 5 (split; [reflexivity|]). intros p' strategy [].
  - destruct (find_strategy strats (Position.symbol p)) as [st|] eqn:Hfind.
    + set (price := simulate_price_movement (rnd k)
                      (Position.current_price p) 1).
      set (strats1 := update_first (has_symbol (Position.symbol p))
                        (set_current_price price) strats).
      assert (Hb1 : map without_price strats = map without_price strats1)
        by (symmetry; apply update_first_without_price).
      specialize (IH strats1 (S k)).
      destruct (update_positions_loop rnd ps strats1 (S k))
        as [[ps' strats'] k'].
      destruct IH as (Hid & Hsym & Hdate & Hqty & Hblind & Hmark).
      cbn [map Position.id Position.symbol Position.entry_date
           Position.quantity].
      rewrite Hid, Hsym, Hdate, Hqty, Hblind, <- Hb1.
      do 5 (split; [reflexivity|]).
      intros p' strategy [<- | Hin] Hf.
      * cbn in Hf |- *. rewrite Hfind in Hf. injection Hf as <-.
        split; [apply py_max_ge_r | reflexivity].
      * pose proof (find_strategy_blind (Position.symbol p') _ _ Hb1) as Hb.
        rewrite Hf in Hb.
        destruct (find_strategy strats1 (Position.symbol p')) as [st1|] eqn:H1;
          [|contradiction].
        destruct (Hmark p' st1 Hin H1) as [Hfloor Hm].
        split; [exact Hfloor|]. rewrite Hm.
        f_equal. symmetry. now apply payoff_blind.
    + specialize (IH strats k).
      destruct (update_positions_loop rnd ps strats k) as [[ps' strats'] k'].
      destruct IH as (Hid & Hsym & Hdate & Hqty & Hblind & Hmark).
      cbn [map]. rewrite Hid, Hsym, Hdate, Hqty.
      do 5 (split; [reflexivity || exact Hblind|]).
      intros p' strategy [<- | Hin] Hf; [congruence|].
      now apply (Hmark p' strategy Hin Hf).
Qed.

(** X15: [update_positions] touches neither cash, trades, counter nor
    configuration, keeps the identifiers, symbols and quantities of the
    positions and every attribute of the strategies but the reference
    price; afterwards every position that has a strategy is priced at 0.01
    or more and its unrealized P&L is the payoff of that strategy at its
    price, times its quantity. *)
Theorem update_positions_marks_to_market (rnd : nat -> Q) (k : nat)
    (e : TradingEngine) :
  let e' := fst (update_positions rnd k e) in
  cash e' = cash e /\ trades e' = trades e
  /\ trade_counter e' = trade_counter e /\ config e' = config e
  /\ map Position.id (positions e') = map Position.id (positions e)
  /\ map Position.symbol (positions e') = map Position.symbol (positions e)
  /\ map Position.quantity (positions e') = map Position.quantity (positions e)
  /\ map without_price (strategies e') = map without_price (strategies e)
  /\ forall p',
       In p' (positions e') ->
       find_strategy (strategies e') (Position.symbol p') <> None ->
       1 # 100 <= Position.current_price p'
       /\ marked_to_market (strategies e') p'.
Proof.
  unfold update_positions.
  pose proof (update_positions_loop_spec rnd (positions e) (strategies e) k)
    as Hspec.
  destruct (update_positions_loop rnd (positions e) (strategies e) k)
    as [[ps' strats'] k'].
  destruct Hspec as (Hid & Hsym & _ & Hqty & Hblind & Hmark).
  cbn [fst cash trades trade_counter config positions strategies].
  do 4 (split; [reflexivity|]).
  split; [exact Hid|]. split; [exact Hsym|]. split; [exact Hqty|].
  split; [exact Hblind|].
  intros p' Hin Hfound.
  pose proof (find_strategy_blind (Position.symbol p') _ _ Hblind) as Hb.
  destruct (find_strategy strats' (Position.symbol p')) as [st'|] eqn:H';
    [|contradiction].
  destruct (find_strategy (strategies e) (Position.symbol p')) as [st|] eqn:H0;
    [|contradiction].
  destruct (Hmark p' st Hin H0) as [Hfloor Hm].
  split; [exact Hfloor|].
  intros st2 H2. rewrite H' in H2. injection H2 as <-.
  rewrite Hm. f_equal. symmetry. now apply payoff_blind.
Qed.

(** ** Value of the portfolio *)

Lemma position_eqb_pnl (p q : Position.t) :
  Position.eqb q p = true ->
  Position.unrealized_pnl q == Position.unrealized_pnl p
  /\ Position.symbol q = Position.symbol p.
Proof.
  unfold Position.eqb. rewrite !andb_true_iff.
  intros [[[[[[[_ Hsym] _] _] _] _] _] Hpnl].
  split; [now apply Qeq_bool_iff | now apply String.eqb_eq].
Qed.

(** X16: closing the first of the open positions, marked to market, leaves
    the total value reported by [get_portfolio] as it was: the P&L moves
    from the position into cash, and the sum over the book starts with
    it. *)
Theorem close_position_conserves_total_value (e : TradingEngine)
    (p : Position.t) (rest : list Position.t) :
  positions e = p :: rest ->
  marked_to_market (strategies e) p ->
  Portfolio.total_value (get_portfolio (fst (close_position e p)))
  = Portfolio.total_value (get_portfolio e).
Proof.
  intros Hbook Hmark. unfold close_position.
  destruct (find_strategy (strategies e) (Position.symbol p)) as [st|] eqn:Hf;
    [|reflexivity].
  rewrite Hbook. cbn [list_remove]. rewrite position_eqb_refl.
  unfold get_portfolio.
  cbn [fst Portfolio.total_value positions cash]. rewrite Hbook.
  cbn [fold_left]. rewrite (Hmark st Hf). reflexivity.
Qed.

Lemma close_position_conserves_total_value_witness :
  positions (fst (close_position engine_holding_two aapl_position_at_158))
  = [tsla_position_day_1]
  /\ Portfolio.total_value
       (get_portfolio
          (fst (close_position engine_holding_two aapl_position_at_158)))
     = Portfolio.total_value (get_portfolio engine_holding_two).
Proof.
  split; [reflexivity|].
  apply (close_position_conserves_total_value engine_holding_two
           aapl_position_at_158 [tsla_position_day_1]).
  - reflexivity.
  - intros st Hst. vm_compute in Hst. injection Hst as <-. reflexivity.
Defined.

(** ** Executing a trade *)

Lemma floor_is_Qfloor (x : Q) : Py.floor x = Qfloor x.
Proof. destruct x. reflexivity. Qed.

(** X17: a "BUY" that returns a trade takes exactly |max_loss| x size out
    of cash, never more than there is, and moves the counter by one; a
    "BUY" that returns nothing changes nothing; and selling a strategy of
    unbounded profit leaves cash infinite. *)
Theorem execute_trade_cash (e : TradingEngine) (s : OptionsStrategy) :
  (forall c n t,
     execute_trade e s "BUY" = (c, n, Some t) ->
     c = Fin (cash e - Qabs (get_max_loss s)
                       * inject_Z (calculate_position_size e s))
     /\ 0 <= cash e - Qabs (get_max_loss s)
                      * inject_Z (calculate_position_size e s)
     /\ n = S (trade_counter e)
     /\ Trade.quantity t = calculate_position_size e s
     /\ (1 <= Trade.quantity t <= 10)%Z)
  /\ (forall c n,
        execute_trade e s "BUY" = (c, n, None) ->
        c = Fin (cash e) /\ n = trade_counter e)
  /\ (get_max_profit s = PInf ->
      (0 < calculate_position_size e s)%Z ->
      fst (fst (execute_trade e s "SELL")) = PInf).
Proof.
  unfold execute_trade.
  assert (Hcap : (calculate_position_size e s <= 10)%Z).
  { unfold calculate_position_size.
    destruct (Py.leb (Qabs (get_max_loss s)) 0); lia. }
  destruct (calculate_position_size e s <=? 0)%Z eqn:Hsize.
  - apply Z.leb_le in Hsize.
    split; [intros c n t [=]|]. split; [intros c n [= <- <-]; auto|].
    intros; lia.
  - apply Z.leb_gt in Hsize. cbn [String.eqb Ascii.eqb Bool.eqb].
    change (String.eqb "BUY" "BUY") with true.
    change (String.eqb "SELL" "BUY") with false. cbv iota.
    destruct (Py.ltb (cash e) _) eqn:Hfunds.
    + split; [intros c n t [=]|]. split; [intros c n [= <- <-]; auto|].
      intros Hinf _. rewrite Hinf. reflexivity.
    + apply PyFacts.ltb_ge in Hfunds.
      split.
      { intros c n t [= <- <- <-]. cbn [Trade.quantity].
        split; [reflexivity|]. split; [lra|]. repeat split; lia. }
      split; [intros c n [=]|].
      intros Hinf _. rewrite Hinf. reflexivity.
Qed.

Lemma execute_trade_cash_witness :
  (exists c n t,
     execute_trade sample_engine sample_iron_condor "BUY" = (c, n, Some t)
     /\ c = Fin (cash sample_engine
                 - Qabs (get_max_loss sample_iron_condor)
                   * inject_Z (calculate_position_size sample_engine
                                 sample_iron_condor))
     /\ 0 <= cash sample_engine
             - Qabs (get_max_loss sample_iron_condor)
               * inject_Z (calculate_position_size sample_engine
                             sample_iron_condor)
     /\ n = S (trade_counter sample_engine)
     /\ Trade.quantity t
        = calculate_position_size sample_engine sample_iron_condor
     /\ (1 <= Trade.quantity t <= 10)%Z)
  /\ fst (fst (execute_trade sample_engine sample_straddle "SELL")) = PInf.
Proof.
  split.
  - do 3 eexists. split; [vm_compute; reflexivity|].
    apply (proj1 (execute_trade_cash sample_engine sample_iron_condor)).
    vm_compute. reflexivity.
  - apply (execute_trade_cash sample_engine sample_straddle); reflexivity.
Defined.

(** ** Identifiers of trades *)

Lemma concat_zeros (k : nat) :
  String.concat "" (repeat "0"%string (S k))
  = String "0"%char (String.concat "" (repeat "0"%string k)).
Proof. destruct k; reflexivity. Qed.

Lemma zeros_read_as_nothing (k : nat) (s : string) (d : Decimal.uint) :
  NilEmpty.uint_of_string s = Some d ->
  option_map Nat.of_uint
    (NilEmpty.uint_of_string
       (String.concat "" (repeat "0"%string k) ++ s))
  = Some (Nat.of_uint d).
Proof.
  intros Hs. induction k as [|k IH].
  - cbn. rewrite Hs. reflexivity.
  - rewrite concat_zeros. cbn [append NilEmpty.uint_of_string].
    destruct (NilEmpty.uint_of_string
                (String.concat "" (repeat "0"%string k) ++ s)) as [d'|];
      [|discriminate IH].
    cbn in IH |- *. injection IH as IH. now rewrite <- IH.
Qed.

(** The padded numeral reads back as the number. *)
Lemma fmt_04d_reads_back (n : nat) :
  option_map Nat.of_uint (NilEmpty.uint_of_string (fmt_04d n)) = Some n.
Proof.
  unfold fmt_04d.
  rewrite (zeros_read_as_nothing _ _ (Nat.to_uint n)) by apply NilEmpty.usu.
  f_equal. apply DecimalNat.Unsigned.of_to.
Qed.

Lemma trade_id_inj (n m : nat) :
  ("T" ++ fmt_04d n)%string = ("T" ++ fmt_04d m)%string -> n = m.
Proof.
  intros H. cbn [append] in H. injection H as H.
  pose proof (fmt_04d_reads_back n) as Hn.
  rewrite H, fmt_04d_reads_back in Hn. now injection Hn.
Qed.

(** ** Invariants of a run *)

Lemma find_strategy_in (strats : list OptionsStrategy) (s : OptionsStrategy) :
  In s strats -> find_strategy strats (symbol (base s)) <> None.
Proof.
  intros Hin Hnone. unfold find_strategy in Hnone.
  apply find_none with (x := s) in Hnone; [|exact Hin].
  unfold has_symbol in Hnone. rewrite String.eqb_refl in Hnone. discriminate.
Qed.

Lemma find_strategy_found_blind (sym : string) (l l' : list OptionsStrategy) :
  map without_price l = map without_price l' ->
  find_strategy l sym <> None -> find_strategy l' sym <> None.
Proof.
  intros Hb Hl Hl'. pose proof (find_strategy_blind sym l l' Hb) as H.
  rewrite Hl' in H. destruct (find_strategy l sym); [exact H | now apply Hl].
Qed.

Lemma filter_keeps_all {A : Type} (f : A -> bool) (l : list A) :
  (forall x, In x l -> f x = true) -> filter f l = l.
Proof.
  induction l as [|a l IH]; intros H; cbn; [reflexivity|].
  rewrite (H a (or_introl eq_refl)), IH; [reflexivity|].
  intros x Hx. apply H. now right.
Qed.

Lemma NoDup_map_filter {A B : Type} (g : A -> B) (f : A -> bool) (l : list A) :
  NoDup (map g l) -> NoDup (map g (filter f l)).
Proof.
  induction l as [|a l IH]; cbn; intros H; [constructor|].
  inversion H as [|? ? Hnot Hnd]; subst.
  destruct (f a); cbn; [|now apply IH].
  constructor; [|now apply IH].
  intros Hin. apply Hnot. apply in_map_iff in Hin as (x & Hx & Hin).
  apply filter_In in Hin as [Hin _]. apply in_map_iff. now exists x.
Qed.

(** Among positions on distinct symbols, [remove] drops the position of
    that symbol. *)
Lemma list_remove_nodup (p : Position.t) (l : list Position.t) :
  NoDup (map Position.symbol l) -> In p l ->
  list_remove p l
  = Some (filter (fun x => negb (String.eqb (Position.symbol x)
                                            (Position.symbol p))) l).
Proof.
  induction l as [|a l IH]; intros Hnd Hin; [destruct Hin|].
  inversion Hnd as [|? ? Hnot Hnd']; subst.
  cbn [list_remove filter].
  destruct (Position.eqb a p) eqn:Ea.
  - apply position_eqb_pnl in Ea as [_ Hsym].
    rewrite Hsym, String.eqb_refl. cbn [negb].
    rewrite filter_keeps_all; [reflexivity|].
    intros x Hx. apply negb_true_iff, String.eqb_neq. intros Heq.
    apply Hnot. rewrite Hsym, <- Heq. now apply in_map.
  - destruct Hin as [-> | Hin];
      [rewrite position_eqb_refl in Ea; discriminate|].
    assert (Hne : String.eqb (Position.symbol a) (Position.symbol p) = false).
    { apply String.eqb_neq. intros Heq. apply Hnot. rewrite Heq.
      now apply in_map. }
    rewrite Hne. cbn [negb]. rewrite (IH Hnd' Hin). reflexivity.
Qed.

Lemma NoDup_snoc {A : Type} (l : list A) (a : A) :
  NoDup l -> ~ In a l -> NoDup (l ++ [a]).
Proof.
  intros Hnd Hnot.
  apply (Permutation_NoDup (Permutation_cons_append l a)).
  now constructor.
Qed.

Lemma position_size_at_most_ten (e : TradingEngine) (s : OptionsStrategy) :
  (calculate_position_size e s <= 10)%Z.
Proof.
  unfold calculate_position_size.
  destruct (Py.leb (Qabs (get_max_loss s)) 0); lia.
Qed.

(** Closing a position of a ledger in order keeps it in order. *)
Lemma close_position_step (c0 : nat) (e : TradingEngine) (p : Position.t) :
  run_invariant c0 e -> In p (positions e) ->
  exists e' t,
    close_position e p = (e', Ok (Some t))
    /\ run_invariant c0 e'
    /\ positions e'
       = filter (fun x => negb (String.eqb (Position.symbol x)
                                           (Position.symbol p)))
                (positions e)
    /\ config e' = config e
    /\ current_date e' = current_date e
    /\ map without_price (strategies e') = map without_price (strategies e).
Proof.
  intros ((Hnd & Hpos & Hlen) & Hcash & Hcount & Hids) Hin.
  unfold close_position.
  destruct (find_strategy (strategies e) (Position.symbol p)) as [st|] eqn:Hf;
    [|now destruct (Hpos p Hin)].
  rewrite (list_remove_nodup p (positions e) Hnd Hin).
  eexists. eexists. split; [reflexivity|].
  set (keep := fun x => negb (String.eqb (Position.symbol x)
                                         (Position.symbol p))).
  assert (Hblind : map without_price
                     (update_first (has_symbol (Position.symbol p))
                        (set_current_price (Position.current_price p))
                        (strategies e))
                   = map without_price (strategies e))
    by apply update_first_without_price.
  split; [|cbn; auto].
  split; [|split].
  - cbn [positions strategies config]. split; [|split].
    + now apply NoDup_map_filter.
    + intros x Hx. apply filter_In in Hx as [Hx _].
      destruct (Hpos x Hx) as [Hs Hq]. split; [|exact Hq].
      apply (find_strategy_found_blind _ (strategies e)); auto.
    + apply Z.le_trans with (Z.of_nat (List.length (positions e)));
        [apply Nat2Z.inj_le, filter_length_le | exact Hlen].
  - unfold cash_accounted in *. cbn [cash config trades].
    rewrite fold_left_app, <- Hcash. reflexivity.
  - unfold trades_numbered in *. cbn [trade_counter trades].
    rewrite length_app, map_app, seq_app, map_app, <- Hids, Hcount.
    cbn. split; [lia | reflexivity].
Qed.

(** Closing several open positions, on distinct symbols, one after the
    other. *)
Lemma close_each_ok (c0 : nat) :
  forall (ps : list Position.t) (e : TradingEngine),
    run_invariant c0 e ->
    NoDup (map Position.symbol ps) ->
    (forall p, In p ps -> In p (positions e)) ->
    exists e',
      close_each ps e = Ok e'
      /\ run_invariant c0 e'
      /\ (forall x, In x (positions e') <->
                    In x (positions e)
                    /\ ~ In (Position.symbol x) (map Position.symbol ps))
      /\ config e' = config e
      /\ current_date e' = current_date e
      /\ map without_price (strategies e') = map without_price (strategies e).
Proof.
  induction ps as [|p ps IH]; intros e Hinv Hnd Hincl.
  - exists e. split; [reflexivity|]. split; [exact Hinv|].
    split; [|auto]. intros x. cbn. tauto.
  - inversion Hnd as [|? ? Hnot Hnd']; subst.
    destruct (close_position_step c0 e p Hinv (Hincl p (or_introl eq_refl)))
      as (e1 & t & Hclose & Hinv1 & Hpos1 & Hcfg1 & Hdate1 & Hblind1).
    cbn [close_each]. rewrite Hclose. cbn [bind].
    destruct (IH e1 Hinv1 Hnd') as (e' & Hrest & Hinv' & Hpos' & Hcfg' & Hdate' & Hblind').
    { intros x Hx. rewrite Hpos1. apply filter_In. split.
      - apply Hincl. now right.
      - apply negb_true_iff, String.eqb_neq. intros Heq. apply Hnot.
        rewrite <- Heq. now apply in_map. }
    exists e'. split; [exact Hrest|]. split; [exact Hinv'|].
    split; [|split; [congruence | split; congruence]].
    intros x. rewrite Hpos', Hpos1, filter_In, negb_true_iff, String.eqb_neq.
    cbn [map In]. split.
    + intros [[Hx Hne] Hrest']. split; [exact Hx|].
      intros [Heq | Hin]; [now apply Hne | now apply Hrest'].
    + intros [Hx Hno]. repeat split; auto.
Qed.

Lemma should_enter_trade_answers (today : Z) (e : TradingEngine)
    (s : OptionsStrategy) :
  strategies e <> [] -> exists go, should_enter_trade today e s = Ok go.
Proof.
  intros Hne. unfold should_enter_trade.
  destruct (_ <=? 0)%Z; [now exists false|].
  destruct (_ <=? _)%Z; [now exists false|].
  destruct (is_expired today s); [now exists false|].
  destruct (strategies e) as [|first rest]; [contradiction|].
  destruct (_ && _); [eexists; reflexivity|].
  destruct (has_total_cost s); eexists; reflexivity.
Qed.

(** The entry loop over strategies of the engine keeps the ledger in
    order and writes nothing but the list of positions. *)
Lemma enter_each_ok (c0 : nat) (today : Z) :
  forall (ss : list OptionsStrategy) (e : TradingEngine),
    run_invariant c0 e ->
    (forall s, In s ss -> In s (strategies e)) ->
    exists e',
      enter_each today ss e = Ok e'
      /\ run_invariant c0 e'
      /\ config e' = config e
      /\ current_date e' = current_date e
      /\ strategies e' = strategies e.
Proof.
  induction ss as [|s ss IH]; intros e Hinv Hincl.
  - exists e. cbn. auto.
  - assert (Hs : In s (strategies e)) by (apply Hincl; now left).
    assert (Hne : strategies e <> []) by (intros H; rewrite H in Hs; destruct Hs).
    destruct (should_enter_trade_answers today e s Hne) as (b & Hb).
    cbn [enter_each]. unfold enters. rewrite Hb. cbn [bind].
    assert (Hnext : forall e1, run_invariant c0 e1 ->
              config e1 = config e -> current_date e1 = current_date e ->
              strategies e1 = strategies e ->
              exists e', enter_each today ss e1 = Ok e'
                /\ run_invariant c0 e' /\ config e' = config e
                /\ current_date e' = current_date e
                /\ strategies e' = strategies e).
    { intros e1 Hinv1 Hc Hd Hst.
      destruct (IH e1 Hinv1) as (e' & H1 & H2 & H3 & H4 & H5).
      - intros x Hx. rewrite Hst. apply Hincl. now right.
      - exists e'. split; [exact H1|]. split; [exact H2|].
        split; [congruence | split; congruence]. }
    destruct b; [|now apply Hnext].
    destruct (find _ (positions e)) as [existing|] eqn:Hfree;
      [now apply Hnext|].
    cbn [bind].
    destruct (0 <? calculate_position_size e s)%Z eqn:Hsize;
      [|now apply Hnext].
    apply Z.ltb_lt in Hsize.
    destruct (should_enter_trade_true today e s Hb) as (_ & Hmax & _).
    destruct Hinv as ((Hnd & Hpos & Hlen) & Hcash & Hnum).
    apply Hnext; try reflexivity.
    split; [|split; [exact Hcash | exact Hnum]].
    unfold book_in_order, open_position. cbn [positions strategies config].
    split; [|split].
    + rewrite map_app. cbn [map new_position Position.symbol].
      apply NoDup_snoc; [exact Hnd|].
      intros Hin. apply in_map_iff in Hin as (x & Hx & Hin).
      apply find_none with (x := x) in Hfree; [|exact Hin].
      cbn in Hfree. rewrite Hx, String.eqb_refl in Hfree. discriminate.
    + intros x Hx. apply in_app_or in Hx as [Hx | [<- | []]];
        [now apply Hpos|].
      cbn [new_position Position.symbol Position.quantity]. split.
      * now apply find_strategy_in.
      * pose proof (position_size_at_most_ten e s). lia.
    + rewrite length_app. cbn [List.length]. lia.
Qed.

Lemma map_pair_eq {A B C : Type} (f : A -> B) (g : A -> C) :
  forall l l' : list A,
    map f l = map f l' -> map g l = map g l' ->
    map (fun x => (f x, g x)) l = map (fun x => (f x, g x)) l'.
Proof.
  induction l as [|a l IH]; intros [|b l'] Hf Hg; try discriminate;
    [reflexivity|].
  cbn in *. injection Hf as Hf1 Hf2. injection Hg as Hg1 Hg2.
  rewrite Hf1, Hg1. f_equal. now apply IH.
Qed.

Lemma update_positions_keeps_invariant (c0 : nat) (rnd : nat -> Q) (k : nat)
    (e : TradingEngine) :
  run_invariant c0 e ->
  run_invariant c0 (fst (update_positions rnd k e))
  /\ config (fst (update_positions rnd k e)) = config e
  /\ current_date (fst (update_positions rnd k e)) = current_date e.
Proof.
  intros ((Hnd & Hpos & Hlen) & Hcash & Hnum).
  unfold update_positions.
  pose proof (update_positions_loop_spec rnd (positions e) (strategies e) k)
    as Hspec.
  destruct (update_positions_loop rnd (positions e) (strategies e) k)
    as [[ps' strats'] k'].
  destruct Hspec as (_ & Hsym & _ & Hqty & Hblind & _).
  cbn [fst]. split; [|split; reflexivity].
  split; [|split; [exact Hcash | exact Hnum]].
  unfold book_in_order. cbn [positions strategies config]. split; [|split].
  - now rewrite Hsym.
  - intros p' Hin.
    pose proof (map_pair_eq Position.symbol Position.quantity _ _ Hsym Hqty)
      as Hpair.
    apply (in_map (fun x => (Position.symbol x, Position.quantity x))) in Hin.
    rewrite Hpair in Hin. apply in_map_iff in Hin as (p & Heq & Hp).
    injection Heq as Hs Hq. destruct (Hpos p Hp) as [Hfound Hrange].
    rewrite <- Hs, <- Hq. split; [|exact Hrange].
    apply (find_strategy_found_blind _ (strategies e)); auto.
  - rewrite <- (length_map Position.symbol ps'), Hsym, length_map. exact Hlen.
Qed.

(** One simulated day keeps the ledger in order and raises nothing. *)
Lemma simulation_day_ok (c0 : nat) (today : Z) (rnd : nat -> Q) (day : Z)
    (e : TradingEngine) (k : nat) :
  run_invariant c0 e ->
  exists e' k',
    simulation_day today rnd day (e, k) = Ok (e', k')
    /\ run_invariant c0 e'
    /\ config e' = config e.
Proof.
  intros Hinv. unfold simulation_day.
  assert (Hinv1 : run_invariant c0 (set_current_date (today + day) e))
    by exact Hinv.
  destruct (update_positions_keeps_invariant c0 rnd k _ Hinv1)
    as (Hinv2 & Hcfg2 & _).
  destruct (update_positions rnd k (set_current_date (today + day) e))
    as [e2 k'].
  cbn [fst] in Hinv2, Hcfg2.
  destruct (close_each_ok c0 (filter (exits today e2) (positions e2)) e2 Hinv2)
    as (e3 & Hclose & Hinv3 & _ & Hcfg3 & _ & _).
  { apply NoDup_map_filter. apply Hinv2. }
  { intros p Hp. now apply filter_In in Hp as [Hp _]. }
  rewrite Hclose. cbn [bind].
  destruct (enter_each_ok c0 today (strategies e3) e3 Hinv3 (fun s H => H))
    as (e4 & Henter & Hinv4 & Hcfg4 & _ & _).
  rewrite Henter. cbn [bind].
  exists e4, k'. split; [reflexivity|]. split; [exact Hinv4|].
  rewrite Hcfg4, Hcfg3, Hcfg2. reflexivity.
Qed.

Lemma simulation_days_ok (c0 : nat) (today : Z) (rnd : nat -> Q) (n : nat) :
  forall (day : Z) (e : TradingEngine) (k : nat),
    run_invariant c0 e ->
    exists e' k',
      simulation_days_from today rnd n day (e, k) = Ok (e', k')
      /\ run_invariant c0 e'
      /\ config e' = config e.
Proof.
  induction n as [|n IH]; intros day e k Hinv.
  - exists e, k. cbn. auto.
  - destruct (simulation_day_ok c0 today rnd day e k Hinv)
      as (e1 & k1 & Hday & Hinv1 & Hcfg1).
    destruct (IH (day + 1)%Z e1 k1 Hinv1) as (e' & k' & Hrest & Hinv' & Hcfg').
    exists e', k'. cbn [simulation_days_from]. rewrite Hday. cbn [bind].
    split; [exact Hrest|]. split; [exact Hinv'|]. congruence.
Qed.

Lemma reset_state_in_order (today : Z) (e : TradingEngine) :
  run_invariant (trade_counter e) (reset_state today e).
Proof.
  split; [|split].
  - split; [constructor|]. split; [intros p []|]. cbn. lia.
  - reflexivity.
  - split; cbn; [lia | reflexivity].
Qed.

(** The day loop and the final closing always come to an end, with the
    ledger in order and no position left. *)
Lemma run_to_close_ok (today : Z) (rnd : nat -> Q) (k : nat)
    (e : TradingEngine) :
  exists e' k',
    run_to_close today rnd k e = Ok (e', k')
    /\ run_invariant (trade_counter e) e'
    /\ positions e' = []
    /\ config e' = config e.
Proof.
  unfold run_to_close.
  destruct (simulation_days_ok (trade_counter e) today rnd
              (Z.to_nat (simulation_days (config (reset_state today e))))
              0%Z (reset_state today e) k (reset_state_in_order today e))
    as (e1 & k1 & Hdays & Hinv1 & Hcfg1).
  rewrite Hdays. cbn [bind].
  destruct (close_each_ok (trade_counter e) (positions e1) e1 Hinv1)
    as (e2 & Hclose & Hinv2 & Hpos2 & Hcfg2 & _ & _).
  { apply Hinv1. }
  { auto. }
  rewrite Hclose. cbn [bind].
  exists e2, k1. split; [reflexivity|]. split; [exact Hinv2|]. split.
  - destruct (positions e2) as [|x l] eqn:Hl; [reflexivity|].
    exfalso. destruct (proj1 (Hpos2 x) (or_introl eq_refl)) as [Hx Hno].
    apply Hno. now apply in_map.
  - rewrite Hcfg2, Hcfg1. reflexivity.
Qed.

Lemma calculate_results_fields (e : TradingEngine) (r : Result.t) :
  calculate_results e = Ok r ->
  ~ initial_capital (config e) == 0
  /\ Result.final_value r = cash e
  /\ Result.trades r = trades e
  /\ Result.total_trades r = List.length (trades e)
  /\ Result.winning_trades r = List.length (filter is_winner (trades e))
  /\ Result.losing_trades r
     = (Z.of_nat (Result.total_trades r) - Z.of_nat (Result.winning_trades r))%Z
  /\ Result.total_return r
     = ((cash e - initial_capital (config e)) / initial_capital (config e)) * 100.
Proof.
  unfold calculate_results.
  destruct (Qeq_bool (initial_capital (config e)) 0) eqn:Hz; [discriminate|].
  intros H. injection H as <-. apply Qeq_bool_neq in Hz.
  repeat split; auto.
Qed.

Lemma run_simulation_inv (today : Z) (rnd : nat -> Q) (k : nat)
    (e e' : TradingEngine) (k' : nat) (r : Result.t) :
  run_simulation today rnd k e = Ok (e', k', r) ->
  run_invariant (trade_counter e) e'
  /\ positions e' = []
  /\ config e' = config e
  /\ calculate_results e' = Ok r.
Proof.
  unfold run_simulation.
  destruct (run_to_close_ok today rnd k e)
    as (e2 & k2 & Hrun & Hinv & Hpos & Hcfg).
  rewrite Hrun. cbn [bind fst].
  destruct (calculate_results e2) as [r2|] eqn:Hres; [|discriminate].
  cbn [bind]. intros [= <- <- <-]. auto.
Qed.



(** X19: the final value of a run is the initial capital with the P&L of
    the trades it reports added to it one by one, in the order they were
    closed: opening a position costs nothing, and nothing but a close moves
    cash. The total return is that final value less the initial capital,
    divided by the initial capital, times 100. *)
Theorem final_value_is_capital_plus_pnl (today : Z) (rnd : nat -> Q)
    (k : nat) (e e' : TradingEngine) (k' : nat) (r : Result.t) :
  run_simulation today rnd k e = Ok (e', k', r) ->
  Result.final_value r
  = fold_left (fun cash trade => cash + Trade.pnl trade) (Result.trades r)
              (initial_capital (config e))
  /\ Result.total_return r
     = ((Result.final_value r - initial_capital (config e))
        / initial_capital (config e)) * 100.
Proof.
  intros Hrun.
  destruct (run_simulation_inv _ _ _ _ _ _ _ Hrun)
    as ((_ & Hcash & _) & _ & Hcfg & Hres).
  destruct (calculate_results_fields e' r Hres)
    as (_ & Hfinal & Htrades & _ & _ & _ & Hret).
  unfold cash_accounted in Hcash. rewrite Hcfg in *.
  rewrite Hfinal, Htrades, Hret. split; [exact Hcash | reflexivity].
Qed.

Lemma final_value_is_capital_plus_pnl_witness :
  exists r,
    (0 < List.length (Result.trades r))%nat
    /\ Result.final_value r
       = fold_left (fun cash trade => cash + Trade.pnl trade) (Result.trades r)
                   (initial_capital (config two_day_engine))
    /\ Result.total_return r
       = ((Result.final_value r - initial_capital (config two_day_engine))
          / initial_capital (config two_day_engine)) * 100.
Proof.
  eexists. split; cycle 1.
  - eapply (final_value_is_capital_plus_pnl 0 jump_at_second_draw 0
              two_day_engine).
    vm_compute. reflexivity.
  - vm_compute. lia.
Defined.

(** X20: at the end of every simulated day of a run the open positions
    are on distinct symbols, each has a strategy in the engine and
    between 1 and 10 contracts, and they are no more than
    max_concurrent_trades (none, when that is negative). *)
Theorem every_day_ends_with_book_in_order (today : Z) (rnd : nat -> Q)
    (k : nat) (e : TradingEngine) (n : nat) :
  exists e' k',
    simulation_days_from today rnd n 0%Z (reset_state today e, k) = Ok (e', k')
    /\ NoDup (map Position.symbol (positions e'))
    /\ (forall p, In p (positions e') ->
          find_strategy (strategies e') (Position.symbol p) <> None
          /\ (1 <= Position.quantity p <= 10)%Z)
    /\ (Z.of_nat (List.length (positions e'))
        <= Z.max 0 (max_concurrent_trades (config e)))%Z.
Proof.
  destruct (simulation_days_ok (trade_counter e) today rnd n 0%Z
              (reset_state today e) k (reset_state_in_order today e))
    as (e' & k' & Hdays & ((Hnd & Hpos & Hlen) & _) & Hcfg).
  exists e', k'. rewrite Hcfg in Hlen. auto.
Qed.

(** X21: the trades a run reports carry pairwise different identifiers,
    and the run moves the trade counter by the number of its trades. *)
Theorem trade_identifiers_are_unique (today : Z) (rnd : nat -> Q)
    (k : nat) (e e' : TradingEngine) (k' : nat) (r : Result.t) :
  run_simulation today rnd k e = Ok (e', k', r) ->
  NoDup (map Trade.id (Result.trades r))
  /\ trade_counter e' = (trade_counter e + Result.total_trades r)%nat.
Proof.
  intros Hrun.
  destruct (run_simulation_inv _ _ _ _ _ _ _ Hrun)
    as ((_ & _ & Hcount & Hids) & _ & _ & Hres).
  destruct (calculate_results_fields e' r Hres)
    as (_ & _ & Htrades & Htotal & _).
  rewrite Htrades, Htotal, Hids. split; [|exact Hcount].
  apply Finite.Injective_map_NoDup; [|apply seq_NoDup].
  intros n m. apply trade_id_inj.
Qed.

Lemma trade_identifiers_are_unique_witness :
  exists e' r,
    NoDup (map Trade.id (Result.trades r))
    /\ trade_counter e'
       = (trade_counter two_day_engine + Result.total_trades r)%nat.
Proof.
  do 2 eexists.
  eapply (trade_identifiers_are_unique 0 jump_at_second_draw 0 two_day_engine).
  vm_compute. reflexivity.
Defined.

(** X22: in the results of a run the winners are at most the trades, the
    losers are the rest and never negative in number, and the win rate
    lies between 0 and 100. *)
Theorem win_statistics_are_consistent (e : TradingEngine) (r : Result.t) :
  calculate_results e = Ok r ->
  (Result.winning_trades r <= Result.total_trades r)%nat
  /\ (0 <= Result.losing_trades r)%Z
  /\ (Z.of_nat (Result.winning_trades r) + Result.losing_trades r
      = Z.of_nat (Result.total_trades r))%Z
  /\ 0 <= Result.win_rate r
  /\ Result.win_rate r <= 100.
Proof.
  intros Hres.
  destruct (calculate_results_fields e r Hres)
    as (_ & _ & _ & Htotal & Hwin & Hlose & _).
  assert (Hle : (Result.winning_trades r <= Result.total_trades r)%nat).
  { rewrite Hwin, Htotal. apply filter_length_le. }
  split; [exact Hle|]. split; [lia|]. split; [lia|].
  destruct (win_rate_of_results e r Hres) as (_ & _ & Hrate).
  destruct (Nat.eq_dec (Result.total_trades r) 0) as [Hz | Hnz].
  - unfold calculate_results in Hres.
    destruct (Qeq_bool (initial_capital (config e)) 0); [discriminate|].
    injection Hres as <-. cbn in Hz |- *. rewrite Hz. cbn. split; discriminate.
  - rewrite Hrate by lia.
    assert (Ht : 0 < inject_Z (Z.of_nat (Result.total_trades r)))
      by (rewrite <- (Zlt_Qlt 0); lia).
    assert (Hw0 : 0 <= inject_Z (Z.of_nat (Result.winning_trades r)))
      by (rewrite <- (Zle_Qle 0); lia).
    assert (Hw1 : inject_Z (Z.of_nat (Result.winning_trades r))
                  <= inject_Z (Z.of_nat (Result.total_trades r)))
      by (rewrite <- Zle_Qle; lia).
    assert (H0 : 0 <= inject_Z (Z.of_nat (Result.winning_trades r))
                      / inject_Z (Z.of_nat (Result.total_trades r)))
      by (apply Qle_shift_div_l; [exact Ht | lra]).
    assert (H1 : inject_Z (Z.of_nat (Result.winning_trades r))
                 / inject_Z (Z.of_nat (Result.total_trades r)) <= 1)
      by (apply Qle_shift_div_r; [exact Ht | lra]).
    split; lra.
Qed.

Lemma win_statistics_are_consistent_witness :
  exists r,
    calculate_results engine_after_two_days = Ok r
    /\ (0 < Result.total_trades r)%nat
    /\ (Result.winning_trades r <= Result.total_trades r)%nat
    /\ (0 <= Result.losing_trades r)%Z
    /\ (Z.of_nat (Result.winning_trades r) + Result.losing_trades r
        = Z.of_nat (Result.total_trades r))%Z
    /\ 0 <= Result.win_rate r
    /\ Result.win_rate r <= 100.
Proof.
  eexists. split; [vm_compute; reflexivity|].
  split; [vm_compute; lia|].
  apply (win_statistics_are_consistent engine_after_two_days).
  vm_compute. reflexivity.
Defined.

(** ** Runs that never trade *)

Lemma expired_blocks_entry (today : Z) (e : TradingEngine) (s : OptionsStrategy) :
  is_expired today s = true -> should_enter_trade today e s = Ok false.
Proof.
  intros Hexp. unfold should_enter_trade.
  destruct (_ <=? 0)%Z; [reflexivity|].
  destruct (_ <=? _)%Z; [reflexivity|].
  rewrite Hexp. reflexivity.
Qed.

Lemma enter_each_expired (today : Z) (ss : list OptionsStrategy)
    (e : TradingEngine) :
  (forall s, In s ss -> is_expired today s = true) ->
  enter_each today ss e = Ok e.
Proof.
  induction ss as [|s ss IH]; intros Hexp; [reflexivity|].
  cbn [enter_each]. unfold enters.
  rewrite (expired_blocks_entry today e s (Hexp s (or_introl eq_refl))).
  cbn [bind]. apply IH. intros x Hx. apply Hexp. now right.
Qed.

Lemma quiet_day (today : Z) (rnd : nat -> Q) (day : Z) (e : TradingEngine)
    (k : nat) :
  positions e = [] ->
  (forall s, In s (strategies e) -> is_expired today s = true) ->
  simulation_day today rnd day (e, k)
  = Ok (set_current_date (today + day) e, k).
Proof.
  intros Hpos Hexp. destruct e as [c ps ts ss cfg d n]. cbn in Hpos, Hexp.
  subst ps. unfold simulation_day, set_current_date, update_positions.
  cbn [update_positions_loop positions strategies cash trades config
       current_date trade_counter filter close_each bind].
  rewrite enter_each_expired; [reflexivity | exact Hexp].
Qed.

Lemma quiet_days (today : Z) (rnd : nat -> Q) (n : nat) :
  forall (day : Z) (e : TradingEngine) (k : nat),
    positions e = [] ->
    (forall s, In s (strategies e) -> is_expired today s = true) ->
    exists d,
      simulation_days_from today rnd n day (e, k)
      = Ok (set_current_date d e, k).
Proof.
  induction n as [|n IH]; intros day e k Hpos Hexp.
  - exists (current_date e). destruct e. reflexivity.
  - cbn [simulation_days_from]. rewrite quiet_day by assumption. cbn [bind].
    destruct (IH (day + 1)%Z (set_current_date (today + day) e) k)
      as (d & Hd); [exact Hpos | exact Hexp |].
    exists d. rewrite Hd. reflexivity.
Qed.

(** X23: when every strategy of the engine is expired (and so also when
    it has none), a run with capital draws no price, records no trade and
    reports the initial capital as final value, a total return of 0 and a
    win rate of 0. *)
Theorem expired_strategies_never_trade (today : Z) (rnd : nat -> Q)
    (k : nat) (e : TradingEngine) :
  (forall s, In s (strategies e) -> is_expired today s = true) ->
  ~ initial_capital (config e) == 0 ->
  exists e' r,
    run_simulation today rnd k e = Ok (e', k, r)
    /\ Result.trades r = []
    /\ Result.total_trades r = 0%nat
    /\ Result.final_value r = initial_capital (config e)
    /\ Result.total_return r == 0
    /\ Result.win_rate r = 0.
Proof.
  intros Hexp Hcap.
  destruct (quiet_days today rnd
              (Z.to_nat (simulation_days (config (reset_state today e))))
              0%Z (reset_state today e) k eq_refl Hexp) as (d & Hd).
  unfold run_simulation, run_to_close. rewrite Hd.
  cbn [bind positions set_current_date reset_state close_each fst].
  unfold calculate_results.
  cbn [config trades cash set_current_date reset_state].
  destruct (Qeq_bool (initial_capital (config e)) 0) eqn:Hz;
    [apply Qeq_bool_iff in Hz; contradiction|].
  cbn [bind]. do 2 eexists. split; [reflexivity|].
  cbn [Result.trades Result.total_trades Result.final_value
       Result.total_return Result.win_rate List.length Nat.ltb Nat.leb].
  repeat split. field. exact Hcap.
Qed.

Lemma expired_strategies_never_trade_witness :
  exists e' r,
    run_simulation 45 jump_at_second_draw 0 sample_engine = Ok (e', 0%nat, r)
    /\ Result.trades r = []
    /\ Result.total_trades r = 0%nat
    /\ Result.final_value r = initial_capital (config sample_engine)
    /\ Result.total_return r == 0
    /\ Result.win_rate r = 0.
Proof.
  apply (expired_strategies_never_trade 45 jump_at_second_draw 0 sample_engine).
  - intros s [<- | [<- | []]]; reflexivity.
  - intros H. vm_compute in H. discriminate H.
Defined.

(** ** Sizing and cash *)

Lemma int_nonpos (x : Q) : x <= 0 -> Py.int x = (- Qfloor (- x))%Z.
Proof.
  intros Hx. destruct x as [a b]. unfold Py.int, Qfloor, Qopp. cbn.
  unfold Qle in Hx. cbn in Hx.
  rewrite <- (Z.opp_involutive a) at 1.
  rewrite Z.quot_opp_l by discriminate.
  rewrite Z.quot_div_nonneg; [reflexivity | lia | reflexivity].
Qed.

Lemma int_monotone (x y : Q) : x <= y -> (Py.int x <= Py.int y)%Z.
Proof.
  intros Hxy.
  destruct (Qlt_le_dec x 0) as [Hx | Hx]; destruct (Qlt_le_dec y 0) as [Hy | Hy].
  - rewrite !int_nonpos by lra.
    assert (Qfloor (- y) <= Qfloor (- x))%Z by (apply Qfloor_resp_le; lra).
    lia.
  - rewrite (int_nonpos x) by lra.
    rewrite (int_floor_nonneg y), floor_is_Qfloor by exact Hy.
    assert (0 <= Qfloor (- x))%Z
      by (apply (Qfloor_resp_le 0); lra).
    assert (0 <= Qfloor y)%Z
      by (apply (Qfloor_resp_le 0); lra).
    lia.
  - lra.
  - rewrite !int_floor_nonneg, !floor_is_Qfloor by lra.
    now apply Qfloor_resp_le.
Qed.

(** X24: the position size is never above 10, and with the same
    non-negative risk fraction more cash never gives a smaller size. *)
Theorem position_size_grows_with_cash (e1 e2 : TradingEngine)
    (s : OptionsStrategy) :
  cash e1 <= cash e2 ->
  risk_per_trade (config e1) == risk_per_trade (config e2) ->
  0 <= risk_per_trade (config e1) ->
  (calculate_position_size e1 s <= calculate_position_size e2 s)%Z
  /\ (calculate_position_size e2 s <= 10)%Z.
Proof.
  intros Hcash Hrisk Hr. split; [|apply position_size_at_most_ten].
  unfold calculate_position_size.
  destruct (Py.leb (Qabs (get_max_loss s)) 0) eqn:Hml; [lia|].
  apply PyFacts.leb_gt in Hml.
  apply Z.min_le_compat_r, int_monotone.
  apply Qle_shift_div_l; [exact Hml|].
  unfold Qdiv. rewrite <- Qmult_assoc, (Qmult_comm (/ _)), Qmult_assoc.
  setoid_replace (cash e1 * risk_per_trade (config e1)
                  * Qabs (get_max_loss s) * / Qabs (get_max_loss s))
    with (cash e1 * risk_per_trade (config e1)) by (field; lra).
  rewrite <- Hrisk. apply Qmult_le_compat_r; assumption.
Qed.

Lemma position_size_grows_with_cash_witness :
  (calculate_position_size zero_capital_engine sample_straddle
   <= calculate_position_size sample_engine sample_straddle)%Z
  /\ (calculate_position_size sample_engine sample_straddle <= 10)%Z.
Proof.
  apply (position_size_grows_with_cash zero_capital_engine sample_engine
                                       sample_straddle).
  - discriminate.
  - reflexivity.
  - discriminate.
Defined.

Lemma probability_of_profit_values_witness :
  _calculate_probability_of_profit (CallSpread aapl_base 150 160 6 2) = 4 # 10
  \/ _calculate_probability_of_profit (CallSpread aapl_base 150 160 6 2) = 6 # 10.
Proof.
  apply (probability_of_profit_values (CallSpread aapl_base 150 160 6 2)).
  reflexivity.
Defined.

(** ** Exits *)

(** X25: a position stays open after a check only while its unrealized
    P&L is strictly above half the maximum loss and, for a finite maximum
    profit, strictly below half of it; so a position on a strategy whose
    maximum profit does not exceed its maximum loss exits at every
    check. *)
Theorem exit_unless_between_half_loss_and_half_profit (today : Z)
    (e : TradingEngine) (p : Position.t) (s : OptionsStrategy) :
  (should_exit_trade today e p s = false ->
   get_max_loss s * (1 # 2) < Position.unrealized_pnl p
   /\ forall m, get_max_profit s = Fin m ->
                Position.unrealized_pnl p < m * (1 # 2))
  /\ (forall m, get_max_profit s = Fin m -> m <= get_max_loss s ->
                should_exit_trade today e p s = true).
Proof.
  assert (Hstay : should_exit_trade today e p s = false ->
            get_max_loss s * (1 # 2) < Position.unrealized_pnl p
            /\ forall m, get_max_profit s = Fin m ->
                         Position.unrealized_pnl p < m * (1 # 2)).
  { unfold should_exit_trade, exit_profit_target, exit_loss_limit.
    destruct (exit_expired today s); [discriminate|].
    destruct (exit_held_too_long today e p s); [discriminate|].
    destruct (get_max_profit s) as [m|].
    - destruct (Py.leb (m * (1 # 2)) _) eqn:Hp; [discriminate|].
      destruct (Py.leb _ (get_max_loss s * (1 # 2))) eqn:Hl; [discriminate|].
      intros _. apply PyFacts.leb_gt in Hp, Hl. split; [exact Hl|].
      intros m' [= <-]. exact Hp.
    - destruct (Py.leb _ (get_max_loss s * (1 # 2))) eqn:Hl; [discriminate|].
      intros _. apply PyFacts.leb_gt in Hl. split; [exact Hl|].
      intros m' [=]. }
  split; [exact Hstay|].
  intros m Hm Hle.
  destruct (should_exit_trade today e p s) eqn:Hexit; [reflexivity|].
  destruct (Hstay eq_refl) as [Hlo Hhi]. specialize (Hhi m Hm). lra.
Qed.

Lemma exit_unless_between_half_loss_and_half_profit_witness :
  should_exit_trade 0 engine_holding_aapl aapl_position sample_iron_condor
  = true.
Proof.
  apply (proj2 (exit_unless_between_half_loss_and_half_profit 0
                  engine_holding_aapl aapl_position sample_iron_condor)
               (5 # 2)).
  - reflexivity.
  - discriminate.
Defined.
